(** * Confidence-gated action orchestration of the VGAC agents

    A shallow embedding of [src/agents/base.py], [src/agents/calibrator.py]
    and [src/agents/actor.py], and the properties of the calibration store,
    the scope resolver, the drift detector, the calibration scorer and the
    gated executor.

    Conventions of the embedding.
    - A Python [float] is an exact rational ([Q]) in the store, the scope
      resolver, the scorer and the executor: the decimal literals of the
      source ([0.85], [0.60], [1.5], [0.018], ...) denote themselves and
      arithmetic does not round.  NaN and the infinities are not values
      of this model.
    - The drift detector is given a second time on IEEE 754 binary64
      numbers, in full, in module [Double]: the quotient is the rounded
      one, and NaN and the infinities are values.  What is proved of the
      detector's classification and of the sign of its ratio is proved
      there.  Module [Binary64] holds the threshold tests of the other
      pure functions on binary64 numbers: they are evaluated at the
      points of the test-suite, and the scorer is shown to stay in
      [0, 1] on every input.
    - A Python [int] is a [Z], a [str] a [string], a [datetime] the number
      of microseconds since the epoch.
    - [dict[str, Any]] payloads are association lists of [pyval].
    - The module-level [_calibration_cache] is a [gmap] held in the
      [World], next to the wall clock that [datetime.now] reads.
    - [async def] functions are run to completion: an [await] is a
      sequencing point of the state-and-exception monad [M]. *)

From Stdlib Require Import ZArith QArith Qabs Lqa Lia String Ascii List Bool.
From Stdlib Require Import DecimalString Floats.
From stdpp Require Import base option gmap strings.

Local Open Scope string_scope.
Local Open Scope list_scope.

(** ** Python numbers *)

Definition float : Type := Q.
Bind Scope Q_scope with float.

Definition datetime : Type := Z.
Bind Scope Z_scope with datetime.

Definition float_le (a b : float) : bool := Qle_bool a b.
Definition float_lt (a b : float) : bool := negb (Qle_bool b a).
Definition float_gt (a b : float) : bool := float_lt b a.

(** [max(a, b)] keeps its first argument unless the second is strictly
    greater; [min(a, b)] keeps it unless the second is strictly smaller. *)
Definition py_max (a b : float) : float := if float_gt b a then b else a.
Definition py_min (a b : float) : float := if float_lt b a then b else a.

(** ** Exceptions and results *)

Inductive exn : Type :=
| ValidationError (model : string)
| ZeroDivisionError
| NotImplementedError (msg : string)
| ToolError (msg : string).

Inductive Result (A : Type) : Type :=
| Ok (a : A)
| Raise (e : exn).
Arguments Ok {A} a.
Arguments Raise {A} e.

(** [a / b] on floats. *)
Definition py_truediv (a b : float) : Result float :=
  if Qeq_bool b 0 then Raise ZeroDivisionError else Ok (a / b)%Q.

(** ** Fixed-point formatting: [f"{x:.1f}"], [f"{x:.2f}"] *)

Definition round_half_even (x : Q) : Z :=
  let n := Qnum x in
  let d := Z.pos (Qden x) in
  let fl := (n / d)%Z in
  match (2 * (n mod d) ?= d)%Z with
  | Lt => fl
  | Gt => (fl + 1)%Z
  | Eq => if Z.even fl then fl else (fl + 1)%Z
  end.

Definition digits_of (n : Z) : string :=
  NilZero.string_of_uint (N.to_uint (Z.to_N n)).

Fixpoint zero_pad (width : nat) (s : string) : string :=
  match width with
  | O => s
  | S w => if (String.length s <? width)%nat then zero_pad w ("0" +:+ s) else s
  end.

Definition format_f (prec : nat) (x : float) : string :=
  let p := (10 ^ Z.of_nat prec)%Z in
  let scaled := round_half_even (Qabs x * inject_Z p)%Q in
  let sign := if float_lt x 0 then "-" else "" in
  let whole := digits_of (scaled / p)%Z in
  match prec with
  | O => sign +:+ whole
  | _ => sign +:+ whole +:+ "." +:+ zero_pad prec (digits_of (scaled mod p)%Z)
  end.

(** ** Dynamically typed payloads *)

#[warnings="-register-all"]
Inductive pyval : Type :=
| PyNone
| PyBool (b : bool)
| PyInt (z : Z)
| PyFloat (x : float)
| PyStr (s : string)
| PyDatetime (t : datetime)
| PyDict (d : list (string * pyval)).

Definition pydict : Type := list (string * pyval).

(** ** base.py *)

Inductive ActionScope : Type :=
| AUTONOMOUS
| NOTIFY
| ESCALATE.

#[export] Instance ActionScope_eq_dec : EqDecision ActionScope.
Proof. solve_decision. Defined.

(** [ActionScope.value] *)
Definition ActionScope_value (s : ActionScope) : string :=
  match s with
  | AUTONOMOUS => "autonomous"
  | NOTIFY => "notify"
  | ESCALATE => "escalate"
  end.

Record CalibrationState : Type := mkCalibrationState {
  cluster_id : string;
  score : float;
  sample_count : Z;
  last_updated : datetime;
  is_learning_mode : bool;
  recalibration_needed : bool;
}.

(** The pydantic constructor: [score] is declared [Field(ge=0.0, le=1.0)]
    and [sample_count] [Field(ge=0)]; a value outside raises. *)
Definition new_CalibrationState (cluster_id : string) (score : float)
    (sample_count : Z) (last_updated : datetime)
    (is_learning_mode recalibration_needed : bool) : Result CalibrationState :=
  if float_le 0.0 score && float_le score 1.0 && (0 <=? sample_count)%Z
  then Ok (mkCalibrationState cluster_id score sample_count last_updated
             is_learning_mode recalibration_needed)
  else Raise (ValidationError "CalibrationState").

Definition CalibrationState_model_dump (s : CalibrationState) : pydict :=
  [ ("cluster_id", PyStr (cluster_id s));
    ("score", PyFloat (score s));
    ("sample_count", PyInt (sample_count s));
    ("last_updated", PyDatetime (last_updated s));
    ("is_learning_mode", PyBool (is_learning_mode s));
    ("recalibration_needed", PyBool (recalibration_needed s)) ].

Record ToolResult : Type := mkToolResult {
  success : bool;
  data : option pydict;
  error : option string;
}.

Definition determine_action_scope (calibration : CalibrationState) : ActionScope :=
  if (sample_count calibration <? 50)%Z || is_learning_mode calibration
  then ESCALATE
  else if float_gt (score calibration) 0.85 then AUTONOMOUS
  else if float_gt (score calibration) 0.60 then NOTIFY
  else ESCALATE.

(** ** The world of the calibrator: cache and wall clock *)

(** [wall_clock k] is what the [k]-th call of [datetime.now(timezone.utc)]
    returns; [clock_reads] counts the calls made so far. *)
Record World : Type := mkWorld {
  _calibration_cache : gmap string CalibrationState;
  wall_clock : nat -> datetime;
  clock_reads : nat;
}.

(** State and exceptions: a computation maps the state before to its
    result, or the exception it raised, and the state after. *)
Definition M (S A : Type) : Type := S -> Result A * S.

#[export] Instance M_ret {S} : MRet (M S) := fun A a s => (Ok a, s).
#[export] Instance M_bind {S} : MBind (M S) := fun A B k m s =>
  match m s with
  | (Ok a, s') => k a s'
  | (Raise e, s') => (Raise e, s')
  end.

Definition raise {S A} (e : exn) : M S A := fun s => (Raise e, s).

Definition of_result {S A} (r : Result A) : M S A := fun s => (r, s).

Definition datetime_now : M World datetime := fun w =>
  (Ok (wall_clock w (clock_reads w)),
   mkWorld (_calibration_cache w) (wall_clock w) (S (clock_reads w))).

Definition cache_store (key : string) (state : CalibrationState) : M World unit :=
  fun w => (Ok tt, mkWorld (<[key := state]> (_calibration_cache w))
                     (wall_clock w) (clock_reads w)).

(** ** calibrator.py *)

Record DriftStatus : Type := mkDriftStatus {
  severity : string;
  action : string;
  message : string;
  drift_ratio : float;
}.

Definition DriftStatus_model_dump (d : DriftStatus) : pydict :=
  [ ("severity", PyStr (severity d));
    ("action", PyStr (action d));
    ("message", PyStr (message d));
    ("drift_ratio", PyFloat (drift_ratio d)) ].

Definition get_calibration_state (cluster_id : string) : M World CalibrationState :=
  fun w =>
    match _calibration_cache w !! cluster_id with
    | Some state => (Ok state, w)
    | None =>
        (now ← datetime_now;
         of_result (new_CalibrationState cluster_id 0.5 0 now true false)) w
    end.

(** [recalibration_needed] is [None] when the caller omits the argument,
    which then takes its default [False]. *)
Definition update_calibration_state (cluster_id : string) (score : float)
    (sample_count : Z) (recalibration_needed : option bool)
    : M World CalibrationState :=
  let recalibration_needed := default false recalibration_needed in
  now ← datetime_now;
  state ← of_result (new_CalibrationState cluster_id score sample_count now
                       (sample_count <? 50)%Z recalibration_needed);
  _ ← cache_store cluster_id state;
  mret state.

Definition check_calibration_drift (current_ece baseline_ece : float)
    : Result DriftStatus :=
  let baseline_ece := if float_le baseline_ece 0 then 0.018%Q else baseline_ece in
  match py_truediv current_ece baseline_ece with
  | Raise e => Raise e
  | Ok drift_ratio =>
      if float_le drift_ratio 1.5 then
        Ok (mkDriftStatus "none" "continue" "Calibration stable" drift_ratio)
      else if float_le drift_ratio 2.0 then
        Ok (mkDriftStatus "moderate" "monitor"
              ("ECE increased " +:+ format_f 1 drift_ratio +:+ "× from baseline")
              drift_ratio)
      else if float_le drift_ratio 5.0 then
        Ok (mkDriftStatus "significant" "reduce_autonomy"
              ("ECE increased " +:+ format_f 1 drift_ratio
                 +:+ "× — reducing autonomous actions")
              drift_ratio)
      else
        Ok (mkDriftStatus "critical" "trigger_recalibration"
              ("ECE increased " +:+ format_f 1 drift_ratio
                 +:+ "× — recalibration required")
              drift_ratio)
  end.

Definition ece_to_calibration_score (ece : float) : float :=
  py_max 0.0 (py_min 1.0 (1.0 - ece * 5))%Q.

(** The two keys [_update_profile] reads from its [metrics] dict; a key
    that is absent is [None]. *)
Record Metrics : Type := mkMetrics {
  metrics_ece : option float;
  metrics_sample_count : option Z;
}.

(** [CalibratorAgent._check_drift] *)
Definition _check_drift (cluster_id : string) : M World ToolResult :=
  state ← get_calibration_state cluster_id;
  current_ece ← of_result (py_truediv (1.0 - score state)%Q 5.0);
  let baseline_ece : float := 0.018%Q in
  drift ← of_result (check_calibration_drift current_ece baseline_ece);
  mret (mkToolResult true
          (Some [ ("cluster_id", PyStr cluster_id);
                  ("drift_status", PyDict (DriftStatus_model_dump drift));
                  ("current_calibration_score", PyFloat (score state));
                  ("sample_count", PyInt (sample_count state)) ])
          None).

(** [CalibratorAgent._trigger_recalibration] *)
Definition _trigger_recalibration (cluster_id reason : string) : M World ToolResult :=
  state ← get_calibration_state cluster_id;
  updated ← update_calibration_state cluster_id (score state)
              (sample_count state) (Some true);
  mret (mkToolResult true
          (Some [ ("cluster_id", PyStr cluster_id);
                  ("reason", PyStr reason);
                  ("recalibration_flagged", PyBool true);
                  ("state", PyDict (CalibrationState_model_dump updated)) ])
          None).

(** [CalibratorAgent._update_profile] *)
Definition _update_profile (cluster_id : string) (metrics : Metrics)
    : M World ToolResult :=
  let ece := default 0.1%Q (metrics_ece metrics) in
  let sample_count := default 0%Z (metrics_sample_count metrics) in
  let score := ece_to_calibration_score ece in
  updated ← update_calibration_state cluster_id score sample_count None;
  mret (mkToolResult true
          (Some [ ("cluster_id", PyStr cluster_id);
                  ("state", PyDict (CalibrationState_model_dump updated)) ])
          None).

(** [BaseAgent.check_action_scope] *)
Definition check_action_scope (cluster_id : string) : M World ActionScope :=
  calibration ← get_calibration_state cluster_id;
  mret (determine_action_scope calibration).

(** ** actor.py *)

(** The three places of [execute_with_gating] that call [self.invoke_tool]:
    the requested action, the Slack notification, the escalation. *)
Inductive CallSite : Type :=
| RunAction
| SendNotification
| EscalateToHuman.

#[export] Instance CallSite_eq_dec : EqDecision CallSite.
Proof. solve_decision. Defined.

(** One call of [invoke_tool] as an observer of the collaborator sees it;
    [call_site] records which statement made it. *)
Record Call : Type := mkCall {
  call_site : CallSite;
  tool_name : string;
  parameters : pydict;
}.

(** [invoke_tool] is abstract in [BaseAgent]: the tool-execution
    collaborator.  It answers a call, given the calls made before, with a
    [ToolResult] or an exception, and may change the world. *)
Definition ToolHandler : Type :=
  list Call -> string -> pydict -> M World ToolResult.

(** What [ActorAgent] itself provides for [invoke_tool]. *)
Definition ActorAgent_invoke_tool : ToolHandler :=
  fun _ tool_name _ =>
    raise (NotImplementedError ("Tool " +:+ tool_name +:+ " not yet implemented")).

(** The state of one gated execution: the world and the calls made so far. *)
Record Exec : Type := mkExec {
  world : World;
  invoked : list Call;
}.

Definition in_world {A} (m : M World A) : M Exec A := fun x =>
  let (r, w) := m (world x) in (r, mkExec w (invoked x)).

Definition invoke_tool (handler : ToolHandler) (site : CallSite)
    (tool_name : string) (parameters : pydict) : M Exec ToolResult := fun x =>
  let (r, w) := handler (invoked x) tool_name parameters (world x) in
  (r, mkExec w (invoked x ++ [mkCall site tool_name parameters])).

(** The dict [execute_with_gating] returns; a key the branch does not set
    is [None]. *)
Record GatedOutcome : Type := mkGatedOutcome {
  executed : bool;
  reason : option string;
  result : option ToolResult;
  notified_human : option bool;
  action_scope : string;
}.

Definition escalation_parameters (calibration : CalibrationState)
    (cluster_id action : string) (parameters : pydict) : pydict :=
  [ ("reason", PyStr ("Low calibration (" +:+ format_f 2 (score calibration)
                        +:+ ") for cluster " +:+ cluster_id));
    ("context", PyDict [ ("action", PyStr action);
                         ("parameters", PyDict parameters) ]) ].

Definition notification_parameters (action : string) : pydict :=
  [ ("channel", PyStr "#gpu-alerts");
    ("message", PyStr ("⚠️ Action taken with moderate confidence: " +:+ action)) ].

(** [ActorAgent.execute_with_gating] *)
Definition execute_with_gating (self_invoke_tool : ToolHandler)
    (cluster_id action : string) (parameters : pydict) : M Exec GatedOutcome :=
  calibration ← in_world (get_calibration_state cluster_id);
  let scope := determine_action_scope calibration in
  if decide (scope = ESCALATE) then
    _ ← invoke_tool self_invoke_tool EscalateToHuman "tool_escalate_to_human"
          (escalation_parameters calibration cluster_id action parameters);
    mret (mkGatedOutcome false
            (Some "Escalated to human due to low calibration")
            None None (ActionScope_value scope))
  else if decide (scope = NOTIFY) then
    result ← invoke_tool self_invoke_tool RunAction action parameters;
    _ ← invoke_tool self_invoke_tool SendNotification
          "tool_send_slack_notification" (notification_parameters action);
    mret (mkGatedOutcome true None (Some result) (Some true)
            (ActionScope_value scope))
  else
    result ← invoke_tool self_invoke_tool RunAction action parameters;
    mret (mkGatedOutcome true None (Some result) (Some false)
            (ActionScope_value scope)).

(** The calls [execute_with_gating] makes, as they appear in a trace. *)
Definition run_call (action : string) (parameters : pydict) : Call :=
  mkCall RunAction action parameters.

Definition notify_call (action : string) : Call :=
  mkCall SendNotification "tool_send_slack_notification"
    (notification_parameters action).

Definition escalate_call (calibration : CalibrationState)
    (cluster_id action : string) (parameters : pydict) : Call :=
  mkCall EscalateToHuman "tool_escalate_to_human"
    (escalation_parameters calibration cluster_id action parameters).

(** Calls of a trace made from a given place. *)
Definition calls_from (site : CallSite) (trace : list Call) : list Call :=
  filter (fun c => call_site c = site) trace.

(** ** The pure functions on IEEE 754 binary64 numbers

    The same source lines with [float] read as Rocq's primitive binary64
    floats, for evaluation at concrete points.  [check_calibration_drift]
    returns the severity, the action and the ratio (the message is left
    out); the divisor is never zero after the substitution of the
    default baseline, and [/] is the IEEE division. *)
Set Warnings "-inexact-float".

Module Binary64.
Local Open Scope float_scope.

Definition py_max (a b : PrimFloat.float) : PrimFloat.float :=
  if a <? b then b else a.
Definition py_min (a b : PrimFloat.float) : PrimFloat.float :=
  if b <? a then b else a.

Definition ece_to_calibration_score (ece : PrimFloat.float) : PrimFloat.float :=
  py_max 0.0 (py_min 1.0 (1.0 - ece * 5)).

Definition check_calibration_drift (current_ece baseline_ece : PrimFloat.float)
    : string * string * PrimFloat.float :=
  let baseline_ece := if baseline_ece <=? 0 then 0.018 else baseline_ece in
  let drift_ratio := current_ece / baseline_ece in
  if drift_ratio <=? 1.5 then ("none", "continue", drift_ratio)
  else if drift_ratio <=? 2.0 then ("moderate", "monitor", drift_ratio)
  else if drift_ratio <=? 5.0 then ("significant", "reduce_autonomy", drift_ratio)
  else ("critical", "trigger_recalibration", drift_ratio).

(** The two comparisons of [determine_action_scope], past the
    learning-mode test. *)
Definition scope_of_score (score : PrimFloat.float) : ActionScope :=
  if 0.85 <? score then AUTONOMOUS
  else if 0.60 <? score then NOTIFY
  else ESCALATE.

End Binary64.

(** ** The drift detector on binary64 numbers, in full

    [check_calibration_drift] with [float] read as binary64: the quotient
    is the rounded IEEE quotient, a comparison with a NaN is false, and
    the message formats the exact value the number holds, as Python does
    ([nan] and [inf] for the values that are not finite). *)
Module Double.

Record DriftStatus : Type := mkDriftStatus {
  severity : string;
  action : string;
  message : string;
  drift_ratio : PrimFloat.float;
}.

(** The rational a finite binary64 number stands for. *)
Definition exact_value (x : spec_float) : Q :=
  match x with
  | S754_finite s m e =>
      let magnitude :=
        match e with
        | Z0 => inject_Z (Z.pos m)
        | Z.pos p => inject_Z (Z.pos m * 2 ^ Z.pos p)
        | Z.neg p => Z.pos m # (2 ^ p)%positive
        end in
      if s then Qopp magnitude else magnitude
  | _ => 0%Q
  end.

(** [f"{x:.1f}"] on a binary64 number. *)
Definition format_f (prec : nat) (x : PrimFloat.float) : string :=
  match Prim2SF x with
  | S754_nan => "nan"
  | S754_infinity s => if s then "-inf" else "inf"
  | S754_zero s => (if s then "-" else "") +:+ format_f prec 0%Q
  | S754_finite s m e => format_f prec (exact_value (S754_finite s m e))
  end.

(** [a / b]: Python raises on a zero divisor, of either sign. *)
Definition py_truediv (a b : PrimFloat.float) : Result PrimFloat.float :=
  if (b =? 0)%float then Raise ZeroDivisionError else Ok (a / b)%float.

Definition check_calibration_drift (current_ece baseline_ece : PrimFloat.float)
    : Result DriftStatus :=
  let baseline_ece :=
    if (baseline_ece <=? 0)%float then 0.018%float else baseline_ece in
  match py_truediv current_ece baseline_ece with
  | Raise e => Raise e
  | Ok drift_ratio =>
      if (drift_ratio <=? 1.5)%float then
        Ok (mkDriftStatus "none" "continue" "Calibration stable" drift_ratio)
      else if (drift_ratio <=? 2.0)%float then
        Ok (mkDriftStatus "moderate" "monitor"
              ("ECE increased " +:+ format_f 1 drift_ratio +:+ "× from baseline")
              drift_ratio)
      else if (drift_ratio <=? 5.0)%float then
        Ok (mkDriftStatus "significant" "reduce_autonomy"
              ("ECE increased " +:+ format_f 1 drift_ratio
                 +:+ "× — reducing autonomous actions")
              drift_ratio)
      else
        Ok (mkDriftStatus "critical" "trigger_recalibration"
              ("ECE increased " +:+ format_f 1 drift_ratio
                 +:+ "× — recalibration required")
              drift_ratio)
  end.

End Double.

(** ** Specification-side definitions and sample inputs *)

(** The specification's [clamp(x, lo, hi)]. *)
Definition clamp (x lo hi : Q) : Q :=
  if Qlt_le_dec x lo then lo else if Qlt_le_dec hi x then hi else x.

(** A world with an empty cache whose clock advances by one microsecond
    at every reading. *)
Definition ticking_world : World := mkWorld ∅ Z.of_nat 0.

(** The environments of the test-suite, and one flagged for recalibration. *)
Definition sample_world : World :=
  mkWorld
    (<["eks-prod" := mkCalibrationState "eks-prod" 0.92 1847 0 false false]>
     (<["slurm-hpc" := mkCalibrationState "slurm-hpc" 0.72 500 0 false false]>
      (<["unknown-batch" := mkCalibrationState "unknown-batch" 0.45 200 0 false false]>
       (<["flagged-batch" := mkCalibrationState "flagged-batch" 0.45 200 0 false true]>
        ∅))))
    Z.of_nat 1.

(** A collaborator every call of which succeeds. *)
Definition obliging_tools : ToolHandler :=
  fun _ _ _ => mret (mkToolResult true None None).

(** A collaborator whose Slack notification raises; other calls succeed. *)
Definition failing_slack : ToolHandler :=
  fun _ tool_name _ =>
    if String.eqb tool_name "tool_send_slack_notification"
    then raise (ToolError "slack unavailable")
    else mret (mkToolResult true None None).

(** A collaborator whose Slack notification reports [success=False]. *)
Definition unsuccessful_slack : ToolHandler :=
  fun _ tool_name _ =>
    if String.eqb tool_name "tool_send_slack_notification"
    then mret (mkToolResult false None (Some "channel_not_found"))
    else mret (mkToolResult true None None).

Definition requeue_parameters : pydict :=
  [ ("job_id", PyStr "job-17"); ("target_queue", PyStr "spot") ].

(** ** predictor.py *)

(** [PredictorAgent.predict_with_calibration]; the dict it returns lists
    its keys in the order of the source. *)
Definition predict_with_calibration (job_id cluster_id : string) : M World pydict :=
  calibration ← get_calibration_state cluster_id;
  let scope := determine_action_scope calibration in
  if decide (scope = ESCALATE) then
    mret [ ("job_id", PyStr job_id);
           ("cluster_id", PyStr cluster_id);
           ("prediction", PyNone);
           ("message", PyStr "Predictions unreliable for this environment");
           ("action_scope", PyStr (ActionScope_value scope));
           ("calibration_score", PyFloat (score calibration)) ]
  else
    mret [ ("job_id", PyStr job_id);
           ("cluster_id", PyStr cluster_id);
           ("prediction", PyDict [ ("wait_time_seconds", PyInt 3600);
                                   ("confidence", PyFloat 0.87) ]);
           ("action_scope", PyStr (ActionScope_value scope));
           ("calibration_score", PyFloat (score calibration)) ].

(** ** More specification-side definitions and sample inputs *)

(** [d[key]] on a dict whose keys are distinct; [None] when the key is
    absent. *)
Fixpoint pydict_get (key : string) (d : pydict) : option pyval :=
  match d with
  | [] => None
  | (k, v) :: rest => if String.eqb k key then Some v else pydict_get key rest
  end.

(** What holds of every record [update_calibration_state] stores under
    [key]: it names its key, its fields are in the ranges the record
    admits, and its learning flag is the one its sample count gives. *)
Definition state_valid (key : string) (st : CalibrationState) : Prop :=
  cluster_id st = key /\
  (0 <= score st <= 1)%Q /\
  (0 <= sample_count st)%Z /\
  is_learning_mode st = (sample_count st <? 50)%Z.

Definition cache_valid (w : World) : Prop :=
  map_Forall state_valid (_calibration_cache w).

(** The drift status [_check_drift] computes from a stored score. *)
Definition drift_of_score (s : float) : Result DriftStatus :=
  match py_truediv (1.0 - s)%Q 5.0 with
  | Ok current_ece => check_calibration_drift current_ece 0.018
  | Raise e => Raise e
  end.

(** The [ToolResult] of [_check_drift]. *)
Definition drift_report (cluster_id : string) (state : CalibrationState)
    (drift : DriftStatus) : ToolResult :=
  mkToolResult true
    (Some [ ("cluster_id", PyStr cluster_id);
            ("drift_status", PyDict (DriftStatus_model_dump drift));
            ("current_calibration_score", PyFloat (score state));
            ("sample_count", PyInt (sample_count state)) ])
    None.

(** A collaborator whose every call raises. *)
Definition raising_tools : ToolHandler :=
  fun _ _ _ => raise (ToolError "connection reset").

(** A collaborator whose every call reports [success=False]. *)
Definition unsuccessful_tools : ToolHandler :=
  fun _ _ _ => mret (mkToolResult false None (Some "queue is full")).

(** A collaborator whose requeue tool rewrites the calibration of
    "slurm-hpc" while it runs. *)
Definition recalibrating_tools : ToolHandler :=
  fun _ tool_name _ =>
    if String.eqb tool_name "tool_requeue_job"
    then _ ← update_calibration_state "slurm-hpc" 0.1 500 None;
         mret (mkToolResult true None None)
    else mret (mkToolResult true None None).

(** How cautious a scope is: AUTONOMOUS < NOTIFY < ESCALATE. *)
Definition caution (s : ActionScope) : nat :=
  match s with
  | AUTONOMOUS => 0
  | NOTIFY => 1
  | ESCALATE => 2
  end.

(** * Properties *)

(** ** Comparisons of the number model *)

Lemma float_le_iff (a b : float) : float_le a b = true <-> (a <= b)%Q.
Proof. apply Qle_bool_iff. Qed.

Lemma float_lt_iff (a b : float) : float_lt a b = true <-> (a < b)%Q.
Proof.
  unfold float_lt. rewrite negb_true_iff, <- not_true_iff_false, Qle_bool_iff.
  split; [apply Qnot_le_lt | apply Qlt_not_le].
Qed.

Lemma float_gt_iff (a b : float) : float_gt a b = true <-> (b < a)%Q.
Proof. apply float_lt_iff. Qed.

Lemma float_le_false (a b : float) : float_le a b = false <-> (b < a)%Q.
Proof.
  rewrite <- not_true_iff_false, float_le_iff.
  split; [apply Qnot_le_lt | apply Qlt_not_le].
Qed.

Lemma float_gt_false (a b : float) : float_gt a b = false <-> (a <= b)%Q.
Proof.
  unfold float_gt, float_lt. rewrite negb_false_iff. apply Qle_bool_iff.
Qed.

(** Decide every comparison of the goal both ways and leave linear
    arithmetic over the rationals. *)
Ltac float_cases :=
  repeat match goal with
  | |- context [float_le ?a ?b] =>
      let E := fresh "E" in
      destruct (float_le a b) eqn:E;
      [apply float_le_iff in E | apply float_le_false in E]
  | |- context [float_gt ?a ?b] =>
      let E := fresh "E" in
      destruct (float_gt a b) eqn:E;
      [apply float_gt_iff in E | apply float_gt_false in E]
  | |- context [float_lt ?a ?b] =>
      let E := fresh "E" in
      destruct (float_lt a b) eqn:E;
      [apply float_lt_iff in E | apply (float_gt_false b a) in E]
  end.

Lemma py_max_spec (a b : float) :
  (a <= py_max a b /\ b <= py_max a b /\ (py_max a b = a \/ py_max a b = b))%Q.
Proof. unfold py_max. float_cases; repeat split; auto; lra. Qed.

Lemma py_min_spec (a b : float) :
  (py_min a b <= a /\ py_min a b <= b /\ (py_min a b = a \/ py_min a b = b))%Q.
Proof. unfold py_min. float_cases; repeat split; auto; lra. Qed.

(** ** ScopeResolver: [determine_action_scope] *)

(** C2. A state with fewer than 50 samples, or one in learning mode,
    resolves to ESCALATE whatever its score. *)
Theorem learning_mode_always_escalates (calibration : CalibrationState) :
  (sample_count calibration < 50)%Z \/ is_learning_mode calibration = true ->
  determine_action_scope calibration = ESCALATE.
Proof.
  intros H. unfold determine_action_scope.
  destruct (sample_count calibration <? 50)%Z eqn:En; [reflexivity|].
  destruct H as [H | ->]; [|reflexivity].
  apply Z.ltb_ge in En. lia.
Qed.

Lemma learning_mode_always_escalates_witness :
  ((10 < 50)%Z \/ true = true) /\
  determine_action_scope (mkCalibrationState "new-cluster" 0.9 10 0 true false)
    = ESCALATE.
Proof.
  assert (H : (10 < 50)%Z \/ true = true) by (left; lia).
  split; [exact H|].
  exact (learning_mode_always_escalates
           (mkCalibrationState "new-cluster" 0.9 10 0 true false) H).
Defined.

(** Past the learning-mode test the scope is a function of the score. *)
Lemma determine_action_scope_established (calibration : CalibrationState) :
  (50 <= sample_count calibration)%Z ->
  is_learning_mode calibration = false ->
  determine_action_scope calibration =
    if float_gt (score calibration) 0.85 then AUTONOMOUS
    else if float_gt (score calibration) 0.60 then NOTIFY
    else ESCALATE.
Proof.
  intros Hn Hl. unfold determine_action_scope. rewrite Hl.
  apply Z.ltb_ge in Hn. rewrite Hn. reflexivity.
Qed.

(** C3. With at least 50 samples and learning mode off, the scope is
    AUTONOMOUS exactly when [score > 0.85], NOTIFY exactly when
    [0.60 < score <= 0.85] and ESCALATE exactly when [score <= 0.60]; a
    score of 0.85 gives NOTIFY and a score of 0.60 gives ESCALATE. *)
Theorem scope_by_score_thresholds (calibration : CalibrationState) :
  (50 <= sample_count calibration)%Z ->
  is_learning_mode calibration = false ->
  (determine_action_scope calibration = AUTONOMOUS
     <-> (0.85 < score calibration)%Q) /\
  (determine_action_scope calibration = NOTIFY
     <-> (0.60 < score calibration /\ score calibration <= 0.85)%Q) /\
  (determine_action_scope calibration = ESCALATE
     <-> (score calibration <= 0.60)%Q) /\
  ((score calibration == 0.85)%Q -> determine_action_scope calibration = NOTIFY) /\
  ((score calibration == 0.60)%Q -> determine_action_scope calibration = ESCALATE).
Proof.
  intros Hn Hl. rewrite (determine_action_scope_established _ Hn Hl).
  float_cases; repeat split; intros; try discriminate; try reflexivity;
    try lra.
Qed.

Lemma scope_by_score_thresholds_witness :
  (50 <= 100)%Z /\
  (determine_action_scope (mkCalibrationState "test" 0.85 100 0 false false) = NOTIFY
     <-> (0.60 < 0.85 /\ 0.85 <= 0.85)%Q) /\
  determine_action_scope (mkCalibrationState "test" 0.85 100 0 false false) = NOTIFY.
Proof.
  assert (Hn : (50 <= 100)%Z) by lia.
  split; [exact Hn|].
  destruct (scope_by_score_thresholds
              (mkCalibrationState "test" 0.85 100 0 false false) Hn eq_refl)
    as (_ & Hnotify & _ & Hboundary & _).
  split; [exact Hnotify | apply Hboundary; reflexivity].
Defined.

(** ** DriftDetector: [check_calibration_drift] *)

(** The baseline the ratio is taken against. *)
Lemma check_calibration_drift_ratio (current_ece baseline_ece : float) :
  exists d, check_calibration_drift current_ece baseline_ece = Ok d /\
    ((baseline_ece <= 0)%Q -> drift_ratio d = (current_ece / 0.018)%Q) /\
    ((0 < baseline_ece)%Q -> drift_ratio d = (current_ece / baseline_ece)%Q).
Proof.
  unfold check_calibration_drift, py_truediv.
  destruct (float_le baseline_ece 0) eqn:Eb;
    [apply float_le_iff in Eb | apply float_le_false in Eb].
  - change (Qeq_bool 0.018 0) with false. cbv iota.
    float_cases; eexists; (split; [reflexivity|]); simpl; split; intros; auto; lra.
  - destruct (Qeq_bool baseline_ece 0) eqn:Ez.
    + apply Qeq_bool_iff in Ez. lra.
    + float_cases; eexists; (split; [reflexivity|]); simpl; split; intros; auto; lra.
Qed.

(** The ratio has the sign of the current error: the divisor is positive. *)
Lemma check_calibration_drift_sign (current_ece baseline_ece : float) :
  exists d, check_calibration_drift current_ece baseline_ece = Ok d /\
    ((0 <= current_ece)%Q -> (0 <= drift_ratio d)%Q) /\
    ((current_ece < 0)%Q -> (drift_ratio d < 0)%Q).
Proof.
  destruct (check_calibration_drift_ratio current_ece baseline_ece)
    as (d & Hd & Hneg & Hpos).
  exists d. split; [exact Hd|].
  destruct (Qlt_le_dec 0 baseline_ece) as [Hb|Hb].
  - rewrite (Hpos Hb). split; intros Hc.
    + apply Qle_shift_div_l; [exact Hb | lra].
    + apply Qlt_shift_div_r; [exact Hb | lra].
  - rewrite (Hneg Hb). split; intros Hc.
    + apply Qle_shift_div_l; lra.
    + apply Qlt_shift_div_r; lra.
Qed.

(** On rationals, a negative current error gives a negative ratio. *)
Lemma drift_ratio_negative_counterexample :
  check_calibration_drift (-0.036) 0.018
    = Ok (mkDriftStatus "none" "continue" "Calibration stable" (-0.036 / 0.018)%Q)
  /\ (-0.036 / 0.018 == -2)%Q
  /\ ~ (0 <= -0.036 / 0.018)%Q.
Proof.
  split; [reflexivity|]. split; [reflexivity|].
  vm_compute. intros H. apply H. reflexivity.
Qed.

(** ** CalibrationScorer: [ece_to_calibration_score] *)

Lemma ece_to_calibration_score_clamp (ece : float) :
  (ece_to_calibration_score ece == clamp (1.0 - ece * 5) 0.0 1.0)%Q.
Proof.
  unfold ece_to_calibration_score, clamp, py_min.
  destruct (Qlt_le_dec (1.0 - ece * 5) 0.0), (Qlt_le_dec 1.0 (1.0 - ece * 5));
    float_cases; unfold py_max; float_cases; lra.
Qed.

Lemma ece_to_calibration_score_range (ece : float) :
  (0 <= ece_to_calibration_score ece <= 1)%Q.
Proof.
  rewrite ece_to_calibration_score_clamp. unfold clamp.
  destruct (Qlt_le_dec (1.0 - ece * 5) 0.0), (Qlt_le_dec 1.0 (1.0 - ece * 5)); lra.
Qed.


(** ** CalibrationStore: [get_calibration_state], [update_calibration_state] *)

Lemma M_bind_unfold {S A B} (m : M S A) (k : A -> M S B) (s : S) :
  (m ≫= k) s =
    match m s with
    | (Ok a, s') => k a s'
    | (Raise e, s') => (Raise e, s')
    end.
Proof. reflexivity. Qed.

Lemma new_CalibrationState_ok id (s : float) (n : Z) t l r :
  (0 <= s <= 1)%Q -> (0 <= n)%Z ->
  new_CalibrationState id s n t l r = Ok (mkCalibrationState id s n t l r).
Proof.
  intros [H0 H1] Hn. unfold new_CalibrationState.
  assert (float_le 0.0 s = true) as -> by (apply float_le_iff; lra).
  assert (float_le s 1.0 = true) as -> by (apply float_le_iff; lra).
  apply Z.leb_le in Hn. rewrite Hn. reflexivity.
Qed.

Lemma get_calibration_state_hit (w : World) (id : string) (st : CalibrationState) :
  _calibration_cache w !! id = Some st ->
  get_calibration_state id w = (Ok st, w).
Proof. intros H. unfold get_calibration_state. rewrite H. reflexivity. Qed.

Lemma get_calibration_state_miss (w : World) (id : string) :
  _calibration_cache w !! id = None ->
  get_calibration_state id w =
    (Ok (mkCalibrationState id 0.5 0 (wall_clock w (clock_reads w)) true false),
     mkWorld (_calibration_cache w) (wall_clock w) (S (clock_reads w))).
Proof. intros H. unfold get_calibration_state. rewrite H. reflexivity. Qed.

(** [get] never fails and never writes to the cache. *)
Lemma get_calibration_state_total (w : World) (id : string) :
  exists st w', get_calibration_state id w = (Ok st, w') /\
    _calibration_cache w' = _calibration_cache w.
Proof.
  destruct (_calibration_cache w !! id) as [st|] eqn:E.
  - exists st, w. split; [apply get_calibration_state_hit, E | reflexivity].
  - eexists _, _. split; [apply get_calibration_state_miss, E | reflexivity].
Qed.

Lemma update_calibration_state_ok (w : World) (id : string) (s : float) (n : Z)
    (flag : option bool) :
  (0 <= s <= 1)%Q -> (0 <= n)%Z ->
  let st := mkCalibrationState id s n (wall_clock w (clock_reads w))
              (n <? 50)%Z (default false flag) in
  update_calibration_state id s n flag w =
    (Ok st, mkWorld (<[id := st]> (_calibration_cache w)) (wall_clock w)
              (S (clock_reads w))).
Proof.
  intros Hs Hn st. unfold update_calibration_state.
  rewrite M_bind_unfold. unfold datetime_now at 1. cbv iota beta.
  rewrite M_bind_unfold. unfold of_result at 1.
  rewrite (new_CalibrationState_ok _ _ _ _ _ _ Hs Hn). reflexivity.
Qed.

(** C7. After [update_calibration_state id s n], [get_calibration_state id]
    returns a record with [score = s], [sample_count = n] and
    [is_learning_mode = (n < 50)]; [s] and [n] range over the values the
    record admits. *)
Theorem update_then_get_round_trip (w : World) (id : string) (s : float) (n : Z)
    (flag : option bool) :
  (0 <= s <= 1)%Q -> (0 <= n)%Z ->
  exists stored w1 fetched w2,
    update_calibration_state id s n flag w = (Ok stored, w1) /\
    get_calibration_state id w1 = (Ok fetched, w2) /\
    fetched = stored /\
    score fetched = s /\
    sample_count fetched = n /\
    is_learning_mode fetched = (n <? 50)%Z.
Proof.
  intros Hs Hn.
  eexists _, _, _, _. split; [apply update_calibration_state_ok; assumption|].
  split.
  - apply get_calibration_state_hit. simpl. apply lookup_insert_eq.
  - repeat split.
Qed.

Lemma update_then_get_round_trip_witness :
  (0 <= 0.88 <= 1)%Q /\ (0 <= 500)%Z /\
  exists stored w1 fetched w2,
    update_calibration_state "test-cluster" 0.88 500 None ticking_world
      = (Ok stored, w1) /\
    get_calibration_state "test-cluster" w1 = (Ok fetched, w2) /\
    fetched = stored /\
    score fetched = 0.88%Q /\
    sample_count fetched = 500%Z /\
    is_learning_mode fetched = (500 <? 50)%Z.
Proof.
  assert (Hs : (0 <= 0.88 <= 1)%Q) by (split; vm_compute; discriminate).
  assert (Hn : (0 <= 500)%Z) by lia.
  split; [exact Hs|]. split; [exact Hn|].
  exact (update_then_get_round_trip ticking_world "test-cluster" 0.88 500 None Hs Hn).
Defined.

(** A score or a sample count the record does not admit is rejected and
    nothing is stored. *)
Lemma update_calibration_state_rejects (w : World) (id : string) (s : float)
    (n : Z) (flag : option bool) :
  (s < 0 \/ 1 < s)%Q \/ (n < 0)%Z ->
  exists w', update_calibration_state id s n flag w
               = (Raise (ValidationError "CalibrationState"), w') /\
    _calibration_cache w' = _calibration_cache w.
Proof.
  intros H. unfold update_calibration_state.
  rewrite M_bind_unfold. unfold datetime_now at 1. cbv iota beta.
  rewrite M_bind_unfold. unfold of_result at 1, new_CalibrationState.
  assert (float_le 0.0 s && float_le s 1.0 && (0 <=? n)%Z = false) as ->.
  { destruct H as [[H|H]|H].
    - assert (float_le 0.0 s = false) as -> by (apply float_le_false; lra).
      reflexivity.
    - assert (float_le s 1.0 = false) as -> by (apply float_le_false; lra).
      apply andb_false_intro1, andb_false_r.
    - apply Z.leb_gt in H. rewrite H. apply andb_false_r. }
  eexists. split; reflexivity.
Qed.

(** C8, as amended. On an identifier the cache does not hold, two
    consecutive calls of [get_calibration_state] both return the
    learning-mode default for that identifier and store nothing; the two
    records agree in every field but [last_updated], which each call reads
    from the clock. *)
Theorem get_unseen_twice_defaults (w : World) (id : string) :
  _calibration_cache w !! id = None ->
  exists first w1 second w2,
    get_calibration_state id w = (Ok first, w1) /\
    get_calibration_state id w1 = (Ok second, w2) /\
    first = mkCalibrationState id 0.5 0 (wall_clock w (clock_reads w)) true false /\
    second = mkCalibrationState id 0.5 0 (wall_clock w (S (clock_reads w))) true false /\
    _calibration_cache w2 = _calibration_cache w.
Proof.
  intros H. eexists _, _, _, _.
  split; [apply get_calibration_state_miss, H|].
  split; [apply get_calibration_state_miss, H|].
  repeat split.
Qed.

Lemma get_unseen_twice_defaults_witness :
  _calibration_cache ticking_world !! "never-seen-before" = None /\
  exists first w1 second w2,
    get_calibration_state "never-seen-before" ticking_world = (Ok first, w1) /\
    get_calibration_state "never-seen-before" w1 = (Ok second, w2) /\
    first = mkCalibrationState "never-seen-before" 0.5 0 0 true false /\
    second = mkCalibrationState "never-seen-before" 0.5 0 1 true false /\
    _calibration_cache w2 = ∅.
Proof.
  assert (H : _calibration_cache ticking_world !! "never-seen-before" = None)
    by reflexivity.
  split; [exact H|].
  exact (get_unseen_twice_defaults ticking_world "never-seen-before" H).
Defined.

(** C8, as stated, fails: with a clock that advances between the two
    calls the records differ in [last_updated]. *)
Lemma get_unseen_twice_differs_counterexample :
  _calibration_cache ticking_world !! "never-seen-before" = None /\
  get_calibration_state "never-seen-before" ticking_world
    = (Ok (mkCalibrationState "never-seen-before" 0.5 0 0 true false),
       mkWorld ∅ Z.of_nat 1) /\
  get_calibration_state "never-seen-before" (mkWorld ∅ Z.of_nat 1)
    = (Ok (mkCalibrationState "never-seen-before" 0.5 0 1 true false),
       mkWorld ∅ Z.of_nat 2) /\
  last_updated (mkCalibrationState "never-seen-before" 0.5 0 0 true false)
    <> last_updated (mkCalibrationState "never-seen-before" 0.5 0 1 true false).
Proof.
  repeat split. simpl. discriminate.
Qed.

(** C10. When the stored record has [recalibration_needed = True], an
    update that omits the argument, as [_update_profile] does, stores
    [recalibration_needed = False]. *)
Theorem update_without_flag_clears_recalibration (w : World) (id : string)
    (old : CalibrationState) :
  _calibration_cache w !! id = Some old ->
  recalibration_needed old = true ->
  (forall (s : float) (n : Z), (0 <= s <= 1)%Q -> (0 <= n)%Z ->
     exists st w1,
       update_calibration_state id s n None w = (Ok st, w1) /\
       _calibration_cache w1 !! id = Some st /\
       recalibration_needed st = false /\
       recalibration_needed st <> recalibration_needed old) /\
  (forall metrics : Metrics, (0 <= default 0 (metrics_sample_count metrics))%Z ->
     exists res st w1,
       _update_profile id metrics w = (Ok res, w1) /\
       success res = true /\
       _calibration_cache w1 !! id = Some st /\
       recalibration_needed st = false /\
       recalibration_needed st <> recalibration_needed old).
Proof.
  intros _ Hold. rewrite Hold. split.
  - intros s n Hs Hn. eexists _, _.
    split; [apply update_calibration_state_ok; assumption|].
    split; [simpl; apply lookup_insert_eq | split; [reflexivity | discriminate]].
  - intros metrics Hn. unfold _update_profile.
    eexists _, _, _. rewrite M_bind_unfold.
    rewrite (update_calibration_state_ok w id _ _ None
               (ece_to_calibration_score_range _) Hn).
    split; [reflexivity|]. split; [reflexivity|].
    split; [simpl; apply lookup_insert_eq | split; [reflexivity | discriminate]].
Qed.

Lemma update_without_flag_clears_recalibration_witness :
  _calibration_cache sample_world !! "flagged-batch"
    = Some (mkCalibrationState "flagged-batch" 0.45 200 0 false true) /\
  exists st w1,
    update_calibration_state "flagged-batch" 0.91 1847 None sample_world
      = (Ok st, w1) /\
    _calibration_cache w1 !! "flagged-batch" = Some st /\
    recalibration_needed st = false /\
    recalibration_needed st <> true.
Proof.
  assert (H : _calibration_cache sample_world !! "flagged-batch"
                = Some (mkCalibrationState "flagged-batch" 0.45 200 0 false true))
    by (vm_compute; reflexivity).
  split; [exact H|].
  refine (proj1 (update_without_flag_clears_recalibration sample_world
                   "flagged-batch" _ H eq_refl) 0.91%Q 1847%Z _ _).
  - split; vm_compute; discriminate.
  - lia.
Defined.

(** A cluster the cache does not hold is in learning mode: no autonomy. *)
Lemma check_action_scope_unseen (w : World) (id : string) :
  _calibration_cache w !! id = None ->
  exists w', check_action_scope id w = (Ok ESCALATE, w') /\
    _calibration_cache w' = _calibration_cache w.
Proof.
  intros H. unfold check_action_scope.
  rewrite M_bind_unfold, (get_calibration_state_miss _ _ H).
  eexists. split; reflexivity.
Qed.

(** [_trigger_recalibration] raises the flag and keeps score and sample
    count. *)
Lemma trigger_recalibration_flags (w : World) (id why : string)
    (st : CalibrationState) :
  _calibration_cache w !! id = Some st ->
  (0 <= score st <= 1)%Q -> (0 <= sample_count st)%Z ->
  exists res st' w1,
    _trigger_recalibration id why w = (Ok res, w1) /\
    _calibration_cache w1 !! id = Some st' /\
    score st' = score st /\
    sample_count st' = sample_count st /\
    recalibration_needed st' = true.
Proof.
  intros Hst Hs Hn. unfold _trigger_recalibration.
  eexists _, _, _. rewrite M_bind_unfold, (get_calibration_state_hit _ _ _ Hst).
  cbv iota beta. rewrite M_bind_unfold.
  rewrite (update_calibration_state_ok w id _ _ (Some true) Hs Hn).
  split; [reflexivity|].
  split; [simpl; apply lookup_insert_eq | repeat split].
Qed.

(** [_check_drift] derives a current error that is never negative from a
    stored score, so the ratio it reports is never negative. *)
Lemma check_drift_of_stored_score (s : float) :
  (0 <= s <= 1)%Q ->
  exists current d,
    py_truediv (1.0 - s) 5.0 = Ok current /\
    check_calibration_drift current 0.018 = Ok d /\
    (0 <= drift_ratio d)%Q.
Proof.
  intros Hs. exists ((1.0 - s) / 5.0)%Q.
  assert (Hc : (0 <= (1.0 - s) / 5.0)%Q) by (apply Qle_shift_div_l; lra).
  destruct (check_calibration_drift_sign ((1.0 - s) / 5.0) 0.018)
    as (d & Hd & Hr & _).
  exists d. split; [reflexivity | split; [exact Hd | exact (Hr Hc)]].
Qed.

(** ** GatedExecutor: [execute_with_gating] *)

(** Run [execute_with_gating] up to the branch that hypothesis [Hs] on the
    scope selects, [Hget] being the state the cache read returned. *)
Ltac enter_branch Hget Hs :=
  unfold execute_with_gating;
  rewrite (@M_bind_unfold Exec); unfold in_world at 1; rewrite Hget;
  cbv iota beta zeta; rewrite Hs; repeat (case_decide; try congruence).

(** Answer the next [invoke_tool] of the goal. *)
Ltac step_invoke_tool :=
  rewrite (@M_bind_unfold Exec); unfold invoke_tool at 1; simpl.

Section GatedExecution.
Variable handler : ToolHandler.
Variables (id act : string) (params : pydict).
Variable x : Exec.
Variables (st : CalibrationState) (w1 : World).
Hypothesis fetched : get_calibration_state id (world x) = (Ok st, w1).

(** The ESCALATE branch: one call, the escalation. *)
Lemma execute_with_gating_escalate :
  determine_action_scope st = ESCALATE ->
  execute_with_gating handler id act params x =
    match handler (invoked x) "tool_escalate_to_human"
            (escalation_parameters st id act params) w1 with
    | (Ok _, w2) =>
        (Ok (mkGatedOutcome false
               (Some "Escalated to human due to low calibration")
               None None "escalate"),
         mkExec w2 (invoked x ++ [escalate_call st id act params]))
    | (Raise e, w2) =>
        (Raise e, mkExec w2 (invoked x ++ [escalate_call st id act params]))
    end.
Proof.
  intros Hs. enter_branch fetched Hs. step_invoke_tool.
  destruct (handler _ _ _ _) as [[res|e] w2]; reflexivity.
Qed.

(** The NOTIFY branch: the action, then the notification. *)
Lemma execute_with_gating_notify :
  determine_action_scope st = NOTIFY ->
  execute_with_gating handler id act params x =
    match handler (invoked x) act params w1 with
    | (Raise e, w2) => (Raise e, mkExec w2 (invoked x ++ [run_call act params]))
    | (Ok res, w2) =>
        match handler (invoked x ++ [run_call act params])
                "tool_send_slack_notification" (notification_parameters act) w2
        with
        | (Ok _, w3) =>
            (Ok (mkGatedOutcome true None (Some res) (Some true) "notify"),
             mkExec w3 ((invoked x ++ [run_call act params]) ++ [notify_call act]))
        | (Raise e, w3) =>
            (Raise e,
             mkExec w3 ((invoked x ++ [run_call act params]) ++ [notify_call act]))
        end
    end.
Proof.
  intros Hs. enter_branch fetched Hs. step_invoke_tool.
  destruct (handler _ _ _ _) as [[res|e] w2]; [|reflexivity].
  step_invoke_tool.
  destruct (handler _ _ _ _) as [[res'|e] w3]; reflexivity.
Qed.

(** The AUTONOMOUS branch: the action only. *)
Lemma execute_with_gating_autonomous :
  determine_action_scope st = AUTONOMOUS ->
  execute_with_gating handler id act params x =
    match handler (invoked x) act params w1 with
    | (Raise e, w2) => (Raise e, mkExec w2 (invoked x ++ [run_call act params]))
    | (Ok res, w2) =>
        (Ok (mkGatedOutcome true None (Some res) (Some false) "autonomous"),
         mkExec w2 (invoked x ++ [run_call act params]))
    end.
Proof.
  intros Hs. enter_branch fetched Hs. step_invoke_tool.
  destruct (handler _ _ _ _) as [[res|e] w2]; reflexivity.
Qed.

End GatedExecution.

(** C1. Whatever the collaborator does, one gated execution calls the
    requested action at most once, and only with the requested
    parameters.  When the scope is ESCALATE the only call made is the
    escalation: the action is not called, and the outcome returned once
    the escalation call returns has [executed = False] and the reason
    "Escalated to human due to low calibration" (an exception of the
    escalation call is raised to the caller instead). *)
Theorem action_invoked_at_most_once (handler : ToolHandler) (id act : string)
    (params : pydict) (x x' : Exec) (st : CalibrationState) (w1 : World)
    (r : Result GatedOutcome) :
  get_calibration_state id (world x) = (Ok st, w1) ->
  execute_with_gating handler id act params x = (r, x') ->
  exists made : list Call,
    invoked x' = (invoked x ++ made)%list /\
    (length (calls_from RunAction made) <= 1)%nat /\
    (calls_from RunAction made = [] \/
     calls_from RunAction made = [run_call act params]) /\
    (determine_action_scope st = ESCALATE ->
       made = [escalate_call st id act params] /\
       length (calls_from RunAction made) = 0%nat /\
       length (calls_from EscalateToHuman made) = 1%nat /\
       match fst (handler (invoked x) "tool_escalate_to_human"
                    (escalation_parameters st id act params) w1) with
       | Ok _ =>
           r = Ok (mkGatedOutcome false
                     (Some "Escalated to human due to low calibration")
                     None None "escalate")
       | Raise e => r = Raise e
       end).
Proof.
  intros Hget Hrun.
  destruct (determine_action_scope st) eqn:Hs.
  - rewrite (execute_with_gating_autonomous handler id act params x st w1 Hget Hs)
      in Hrun.
    exists [run_call act params].
    destruct (handler _ _ _ _) as [[res|e] w2]; injection Hrun as <- <-;
      (split; [reflexivity|]); (split; [simpl; lia|]);
      (split; [right; reflexivity | discriminate]).
  - rewrite (execute_with_gating_notify handler id act params x st w1 Hget Hs) in Hrun.
    destruct (handler _ _ _ _) as [[res|e] w2].
    + exists [run_call act params; notify_call act].
      destruct (handler _ _ _ _) as [[res'|e] w3]; injection Hrun as <- <-;
        (split; [simpl; rewrite <- app_assoc; reflexivity|]); (split; [simpl; lia|]);
        (split; [right; reflexivity | discriminate]).
    + exists [run_call act params]. injection Hrun as <- <-.
      (split; [reflexivity|]); (split; [simpl; lia|]);
      (split; [right; reflexivity | discriminate]).
  - rewrite (execute_with_gating_escalate handler id act params x st w1 Hget Hs) in Hrun.
    exists [escalate_call st id act params].
    destruct (handler _ _ _ _) as [[res|e] w2]; injection Hrun as <- <-;
      (split; [reflexivity|]); (split; [simpl; lia|]);
      (split; [left; reflexivity|]); intros _; repeat split.
Qed.

Lemma action_invoked_at_most_once_witness :
  get_calibration_state "unknown-batch" sample_world
    = (Ok (mkCalibrationState "unknown-batch" 0.45 200 0 false false), sample_world) /\
  execute_with_gating obliging_tools "unknown-batch" "tool_requeue_job"
      requeue_parameters (mkExec sample_world [])
    = (Ok (mkGatedOutcome false (Some "Escalated to human due to low calibration")
             None None "escalate"),
       mkExec sample_world
         [escalate_call (mkCalibrationState "unknown-batch" 0.45 200 0 false false)
            "unknown-batch" "tool_requeue_job" requeue_parameters]) /\
  exists made : list Call,
    [escalate_call (mkCalibrationState "unknown-batch" 0.45 200 0 false false)
       "unknown-batch" "tool_requeue_job" requeue_parameters]
      = [] ++ made /\
    (length (calls_from RunAction made) <= 1)%nat /\
    (calls_from RunAction made = [] \/
     calls_from RunAction made = [run_call "tool_requeue_job" requeue_parameters]).
Proof.
  assert (Hget : get_calibration_state "unknown-batch" (world (mkExec sample_world []))
                 = (Ok (mkCalibrationState "unknown-batch" 0.45 200 0 false false),
                    sample_world)) by (vm_compute; reflexivity).
  assert (Hrun : execute_with_gating obliging_tools "unknown-batch" "tool_requeue_job"
                   requeue_parameters (mkExec sample_world [])
                 = (Ok (mkGatedOutcome false
                          (Some "Escalated to human due to low calibration")
                          None None "escalate"),
                    mkExec sample_world
                      [escalate_call
                         (mkCalibrationState "unknown-batch" 0.45 200 0 false false)
                         "unknown-batch" "tool_requeue_job" requeue_parameters]))
    by (vm_compute; reflexivity).
  split; [exact Hget|]. split; [exact Hrun|].
  destruct (action_invoked_at_most_once _ _ _ _ _ _ _ _ _ Hget Hrun)
    as (made & Hmade & Hle & Hshape & _).
  exists made. split; [exact Hmade | split; [exact Hle | exact Hshape]].
Defined.

(** C6, as amended. In the NOTIFY scope, once the action call has returned,
    the notification is called once; the action call stays in the trace
    and the world is the one the notification left, nothing is undone.
    When the notification call returns, with whatever [ToolResult],
    [execute_with_gating] returns [executed = True] and
    [notified_human = True] with the action's result; when it raises, the
    exception is raised to the caller. *)
Theorem notify_outcome_follows_notification (handler : ToolHandler)
    (id act : string) (params : pydict) (x : Exec) (st : CalibrationState)
    (w1 w2 : World) (res : ToolResult) :
  get_calibration_state id (world x) = (Ok st, w1) ->
  determine_action_scope st = NOTIFY ->
  handler (invoked x) act params w1 = (Ok res, w2) ->
  exists (sent : Result ToolResult) (w3 : World),
    handler (invoked x ++ [run_call act params]) "tool_send_slack_notification"
      (notification_parameters act) w2 = (sent, w3) /\
    execute_with_gating handler id act params x =
      (match sent with
       | Ok _ => Ok (mkGatedOutcome true None (Some res) (Some true) "notify")
       | Raise e => Raise e
       end,
       mkExec w3 (invoked x ++ [run_call act params; notify_call act])).
Proof.
  intros Hget Hs Hact.
  rewrite (execute_with_gating_notify handler id act params x st w1 Hget Hs), Hact.
  destruct (handler (invoked x ++ [run_call act params]) _ _ w2) as [[res'|e] w3];
    eexists _, _; (split; [reflexivity|]); rewrite <- app_assoc; reflexivity.
Qed.

Lemma notify_outcome_follows_notification_witness :
  get_calibration_state "slurm-hpc" sample_world
    = (Ok (mkCalibrationState "slurm-hpc" 0.72 500 0 false false), sample_world) /\
  determine_action_scope (mkCalibrationState "slurm-hpc" 0.72 500 0 false false)
    = NOTIFY /\
  unsuccessful_slack [] "tool_requeue_job" requeue_parameters sample_world
    = (Ok (mkToolResult true None None), sample_world) /\
  exists (sent : Result ToolResult) (w3 : World),
    unsuccessful_slack [run_call "tool_requeue_job" requeue_parameters]
      "tool_send_slack_notification" (notification_parameters "tool_requeue_job")
      sample_world = (sent, w3) /\
    execute_with_gating unsuccessful_slack "slurm-hpc" "tool_requeue_job"
        requeue_parameters (mkExec sample_world []) =
      (match sent with
       | Ok _ => Ok (mkGatedOutcome true None
                       (Some (mkToolResult true None None)) (Some true) "notify")
       | Raise e => Raise e
       end,
       mkExec w3 [run_call "tool_requeue_job" requeue_parameters;
                  notify_call "tool_requeue_job"]).
Proof.
  assert (Hget : get_calibration_state "slurm-hpc" (world (mkExec sample_world []))
                 = (Ok (mkCalibrationState "slurm-hpc" 0.72 500 0 false false),
                    sample_world)) by (vm_compute; reflexivity).
  assert (Hs : determine_action_scope
                 (mkCalibrationState "slurm-hpc" 0.72 500 0 false false) = NOTIFY)
    by reflexivity.
  assert (Hact : unsuccessful_slack (invoked (mkExec sample_world []))
                   "tool_requeue_job" requeue_parameters sample_world
                 = (Ok (mkToolResult true None None), sample_world))
    by reflexivity.
  split; [exact Hget|]. split; [exact Hs|]. split; [exact Hact|].
  exact (notify_outcome_follows_notification unsuccessful_slack "slurm-hpc"
           "tool_requeue_job" requeue_parameters (mkExec sample_world []) _ _ _ _
           Hget Hs Hact).
Defined.

(** C6, as stated, fails: when the notification raises after the action
    ran, [execute_with_gating] raises and returns no outcome. *)
Lemma notification_failure_fails_request_counterexample :
  determine_action_scope (mkCalibrationState "slurm-hpc" 0.72 500 0 false false)
    = NOTIFY /\
  get_calibration_state "slurm-hpc" sample_world
    = (Ok (mkCalibrationState "slurm-hpc" 0.72 500 0 false false), sample_world) /\
  failing_slack [] "tool_requeue_job" requeue_parameters sample_world
    = (Ok (mkToolResult true None None), sample_world) /\
  execute_with_gating failing_slack "slurm-hpc" "tool_requeue_job"
      requeue_parameters (mkExec sample_world [])
    = (Raise (ToolError "slack unavailable"),
       mkExec sample_world [run_call "tool_requeue_job" requeue_parameters;
                            notify_call "tool_requeue_job"]).
Proof.
  split; [reflexivity|]. split; [vm_compute; reflexivity|].
  split; [reflexivity|]. vm_compute; reflexivity.
Qed.

(** With the [invoke_tool] that [ActorAgent] itself defines, every gated
    execution stops at its first call. *)
Lemma execute_with_gating_not_implemented (id act : string) (params : pydict)
    (x : Exec) :
  exists msg c w,
    execute_with_gating ActorAgent_invoke_tool id act params x
      = (Raise (NotImplementedError msg), mkExec w (invoked x ++ [c])).
Proof.
  destruct (get_calibration_state_total (world x) id) as (st & w1 & Hget & _).
  destruct (determine_action_scope st) eqn:Hs.
  - rewrite (execute_with_gating_autonomous _ id act params x st w1 Hget Hs).
    eexists _, _, _. reflexivity.
  - rewrite (execute_with_gating_notify _ id act params x st w1 Hget Hs).
    eexists _, _, _. reflexivity.
  - rewrite (execute_with_gating_escalate _ id act params x st w1 Hget Hs).
    eexists _, _, _. reflexivity.
Qed.

(** ** The points of the test-suite *)

Example format_f_points :
  format_f 2 0.45 = "0.45" /\ format_f 2 1 = "1.00" /\ format_f 2 0.125 = "0.12" /\
  format_f 1 (0.030 / 0.018) = "1.7" /\ format_f 1 (-0.25) = "-0.2" /\
  format_f 1 22 = "22.0".
Proof. repeat split; vm_compute; reflexivity. Qed.

Example escalation_reason_text :
  escalation_parameters (mkCalibrationState "unknown-batch" 0.45 200 0 false false)
    "unknown-batch" "tool_requeue_job" []
  = [ ("reason", PyStr "Low calibration (0.45) for cluster unknown-batch");
      ("context", PyDict [ ("action", PyStr "tool_requeue_job");
                           ("parameters", PyDict []) ]) ].
Proof. vm_compute. reflexivity. Qed.

Example scope_test_points :
  determine_action_scope (mkCalibrationState "new-cluster" 0.9 10 0 true false) = ESCALATE /\
  determine_action_scope (mkCalibrationState "eks-prod" 0.92 1847 0 false false) = AUTONOMOUS /\
  determine_action_scope (mkCalibrationState "slurm-hpc" 0.72 500 0 false false) = NOTIFY /\
  determine_action_scope (mkCalibrationState "unknown-batch" 0.45 200 0 false false) = ESCALATE /\
  determine_action_scope (mkCalibrationState "test" 0.86 100 0 false false) = AUTONOMOUS /\
  determine_action_scope (mkCalibrationState "test" 0.84 100 0 false false) = NOTIFY /\
  determine_action_scope (mkCalibrationState "test" 0.61 100 0 false false) = NOTIFY /\
  determine_action_scope (mkCalibrationState "test" 0.59 100 0 false false) = ESCALATE.
Proof. repeat split. Qed.

Example drift_test_points :
  check_calibration_drift 0.020 0.018
    = Ok (mkDriftStatus "none" "continue" "Calibration stable" (0.020 / 0.018)) /\
  check_calibration_drift 0.030 0.018
    = Ok (mkDriftStatus "moderate" "monitor" "ECE increased 1.7× from baseline"
            (0.030 / 0.018)) /\
  check_calibration_drift 0.060 0.018
    = Ok (mkDriftStatus "significant" "reduce_autonomy"
            "ECE increased 3.3× — reducing autonomous actions" (0.060 / 0.018)) /\
  check_calibration_drift 0.100 0.018
    = Ok (mkDriftStatus "critical" "trigger_recalibration"
            "ECE increased 5.6× — recalibration required" (0.100 / 0.018)) /\
  check_calibration_drift 0.396 0.018
    = Ok (mkDriftStatus "critical" "trigger_recalibration"
            "ECE increased 22.0× — recalibration required" (0.396 / 0.018)) /\
  (20 <= 0.396 / 0.018)%Q.
Proof. repeat split; vm_compute; try reflexivity; discriminate. Qed.

Example score_test_points :
  (ece_to_calibration_score 0.0 == 1.0 /\ ece_to_calibration_score 0.2 == 0.0 /\
   ece_to_calibration_score 0.018 == 0.91 /\
   0.5 < ece_to_calibration_score 0.08 /\ ece_to_calibration_score 0.08 < 0.7)%Q.
Proof. repeat split. Qed.

(** The same points on binary64 numbers. *)
Example binary64_score_test_points :
  (Binary64.ece_to_calibration_score 0.0 =? 1.0)%float = true /\
  (Binary64.ece_to_calibration_score 0.2 =? 0.0)%float = true /\
  (0.90 <? Binary64.ece_to_calibration_score 0.018)%float = true /\
  (Binary64.ece_to_calibration_score 0.018 <? 0.95)%float = true /\
  (0.5 <? Binary64.ece_to_calibration_score 0.08)%float = true /\
  (Binary64.ece_to_calibration_score 0.08 <? 0.7)%float = true.
Proof. repeat split; vm_compute; reflexivity. Qed.

Example binary64_drift_test_points :
  fst (Binary64.check_calibration_drift 0.020 0.018) = ("none", "continue") /\
  fst (Binary64.check_calibration_drift 0.030 0.018) = ("moderate", "monitor") /\
  fst (Binary64.check_calibration_drift 0.060 0.018) = ("significant", "reduce_autonomy") /\
  fst (Binary64.check_calibration_drift 0.100 0.018)
    = ("critical", "trigger_recalibration") /\
  fst (Binary64.check_calibration_drift 0.396 0.018)
    = ("critical", "trigger_recalibration") /\
  (20 <=? snd (Binary64.check_calibration_drift 0.396 0.018))%float = true /\
  (snd (Binary64.check_calibration_drift (-0.036) 0.018) <? 0)%float = true.
Proof. repeat split; vm_compute; reflexivity. Qed.

Example binary64_scope_test_points :
  Binary64.scope_of_score 0.92%float = AUTONOMOUS /\
  Binary64.scope_of_score 0.86%float = AUTONOMOUS /\
  Binary64.scope_of_score 0.85%float = NOTIFY /\
  Binary64.scope_of_score 0.84%float = NOTIFY /\
  Binary64.scope_of_score 0.72%float = NOTIFY /\
  Binary64.scope_of_score 0.61%float = NOTIFY /\
  Binary64.scope_of_score 0.60%float = ESCALATE /\
  Binary64.scope_of_score 0.59%float = ESCALATE /\
  Binary64.scope_of_score 0.45%float = ESCALATE.
Proof. repeat split; vm_compute; reflexivity. Qed.

(** ** The threshold tests on binary64 numbers

    The comparisons of the scope resolver and of the drift detector,
    for every binary64 number that is not a NaN: the classification by
    strict and inclusive bounds is the same as on the rationals. *)

Lemma binary64_not_nan (x : PrimFloat.float) :
  (x =? x)%float = true -> Prim2SF x <> S754_nan.
Proof. rewrite FloatAxioms.eqb_spec. intros H E. rewrite E in H. discriminate. Qed.

Lemma SFcompare_score_bounds (x : spec_float) :
  x <> S754_nan ->
  let c60 := S754_finite false 5404319552844595 (-53) in
  let c85 := S754_finite false 7656119366529843 (-53) in
  (SFltb c85 x = true -> SFltb c60 x = true) /\
  (SFltb c85 x = false <-> SFleb x c85 = true) /\
  (SFltb c60 x = false <-> SFleb x c60 = true).
Proof.
  intros Hx c60 c85. subst c60 c85.
  assert (Hc : (5404319552844595 < 7656119366529843)%positive) by reflexivity.
  revert Hc.
  generalize 7656119366529843%positive as m85.
  generalize 5404319552844595%positive as m60.
  intros m60 m85 Hc.
  destruct x as [sg|sg| |sg m e]; try congruence.
  - destruct sg; cbn; intuition congruence.
  - destruct sg; cbn; intuition congruence.
  - destruct sg; [cbn; intuition congruence|].
    unfold SFltb, SFleb, SFcompare.
    rewrite (Z.compare_antisym e (-53)%Z).
    destruct (Z.compare_spec e (-53)%Z); cbn [CompOpp];
      try (intuition congruence).
    rewrite !Pos.compare_cont_spec.
    destruct (Pos.compare_spec m m85), (Pos.compare_spec m85 m),
             (Pos.compare_spec m m60), (Pos.compare_spec m60 m);
      try lia; cbn [Pos.switch_Eq]; intuition congruence.
Qed.

Lemma binary64_scope_thresholds (s : PrimFloat.float) :
  (s =? s)%float = true ->
  (Binary64.scope_of_score s = AUTONOMOUS <-> (0.85 <? s)%float = true) /\
  (Binary64.scope_of_score s = NOTIFY
     <-> (0.60 <? s)%float = true /\ (s <=? 0.85)%float = true) /\
  (Binary64.scope_of_score s = ESCALATE <-> (s <=? 0.60)%float = true).
Proof.
  intros Hs. apply binary64_not_nan in Hs.
  destruct (SFcompare_score_bounds (Prim2SF s) Hs) as (H1 & H2 & H3).
  unfold Binary64.scope_of_score. rewrite !ltb_spec, !leb_spec.
  change (Prim2SF 0.85) with (S754_finite false 7656119366529843 (-53)).
  change (Prim2SF 0.60) with (S754_finite false 5404319552844595 (-53)).
  destruct (SFltb (S754_finite false 7656119366529843 (-53)) (Prim2SF s));
    destruct (SFltb (S754_finite false 5404319552844595 (-53)) (Prim2SF s));
    intuition congruence.
Qed.

Lemma SFcompare_ratio_bounds (x : spec_float) :
  x <> S754_nan ->
  let c15 := S754_finite false 6755399441055744 (-52) in
  let c20 := S754_finite false 4503599627370496 (-51) in
  let c50 := S754_finite false 5629499534213120 (-50) in
  (SFleb x c15 = true -> SFleb x c20 = true) /\
  (SFleb x c20 = true -> SFleb x c50 = true) /\
  (SFleb x c15 = false <-> SFltb c15 x = true) /\
  (SFleb x c20 = false <-> SFltb c20 x = true) /\
  (SFleb x c50 = false <-> SFltb c50 x = true).
Proof.
  intros Hx c15 c20 c50. subst c15 c20 c50.
  generalize 6755399441055744%positive as m15.
  generalize 4503599627370496%positive as m20.
  generalize 5629499534213120%positive as m50.
  intros m50 m20 m15.
  destruct x as [sg|sg| |sg m e]; try congruence.
  - destruct sg; cbn; intuition congruence.
  - destruct sg; cbn; intuition congruence.
  - destruct sg; [cbn; intuition congruence|].
    unfold SFltb, SFleb, SFcompare.
    rewrite (Z.compare_antisym e (-52)%Z), (Z.compare_antisym e (-51)%Z),
            (Z.compare_antisym e (-50)%Z).
    destruct (Z.compare_spec e (-52)%Z), (Z.compare_spec e (-51)%Z),
             (Z.compare_spec e (-50)%Z); try lia; cbn [CompOpp];
      rewrite ?Pos.compare_cont_spec;
      try (intuition congruence).
    all: destruct (Pos.compare_spec m m15), (Pos.compare_spec m15 m),
                  (Pos.compare_spec m m20), (Pos.compare_spec m20 m),
                  (Pos.compare_spec m m50), (Pos.compare_spec m50 m);
           try lia; cbn [Pos.switch_Eq]; intuition congruence.
Qed.

Lemma binary64_drift_classified (current_ece baseline_ece : PrimFloat.float) :
  let d := Binary64.check_calibration_drift current_ece baseline_ece in
  (snd d =? snd d)%float = true ->
  (fst d = ("none", "continue") <-> (snd d <=? 1.5)%float = true) /\
  (fst d = ("moderate", "monitor")
     <-> (1.5 <? snd d)%float = true /\ (snd d <=? 2.0)%float = true) /\
  (fst d = ("significant", "reduce_autonomy")
     <-> (2.0 <? snd d)%float = true /\ (snd d <=? 5.0)%float = true) /\
  (fst d = ("critical", "trigger_recalibration") <-> (5.0 <? snd d)%float = true).
Proof.
  unfold Binary64.check_calibration_drift.
  generalize (current_ece
              / (if baseline_ece <=? 0 then 0.018 else baseline_ece))%float as r.
  intros r. cbv zeta.
  destruct (r <=? 1.5)%float eqn:E15; [|destruct (r <=? 2.0)%float eqn:E20;
    [|destruct (r <=? 5.0)%float eqn:E50]]; cbn [fst snd]; intros Hr;
    apply binary64_not_nan in Hr;
    destruct (SFcompare_ratio_bounds (Prim2SF r) Hr) as (H1 & H2 & H3 & H4 & H5);
    revert E15; try revert E20; try revert E50;
    rewrite ?ltb_spec, ?leb_spec;
    change (Prim2SF 1.5) with (S754_finite false 6755399441055744 (-52)) in *;
    change (Prim2SF 2.0) with (S754_finite false 4503599627370496 (-51)) in *;
    change (Prim2SF 5.0) with (S754_finite false 5629499534213120 (-50)) in *;
    intros;
    repeat match goal with
    | |- context [SFleb ?a ?b] => destruct (SFleb a b) eqn:?
    | |- context [SFltb ?a ?b] => destruct (SFltb a b) eqn:?
    end;
    intuition congruence.
Qed.

(** A NaN is outside the rational model.  On binary64 numbers every
    comparison with a NaN is false: a NaN ratio is classified critical,
    and a NaN error is scored 1.0. *)
Example binary64_nan_points :
  fst (Binary64.check_calibration_drift nan 0.018)
    = ("critical", "trigger_recalibration") /\
  (Binary64.ece_to_calibration_score nan =? 1.0)%float = true /\
  Binary64.scope_of_score nan = ESCALATE.
Proof. repeat split; vm_compute; reflexivity. Qed.

(** * Further properties of the store, the monitor, the predictor and the
      executor *)

(** ** The store *)

(** One run of [update_calibration_state], by what the constructor says. *)
Lemma update_calibration_state_run (w : World) (id : string) (s : float) (n : Z)
    (flag : option bool) :
  update_calibration_state id s n flag w =
    match new_CalibrationState id s n (wall_clock w (clock_reads w))
            (n <? 50)%Z (default false flag) with
    | Ok st => (Ok st, mkWorld (<[id := st]> (_calibration_cache w))
                         (wall_clock w) (S (clock_reads w)))
    | Raise e => (Raise e, mkWorld (_calibration_cache w) (wall_clock w)
                             (S (clock_reads w)))
    end.
Proof.
  unfold update_calibration_state.
  rewrite M_bind_unfold. unfold datetime_now at 1. cbv iota beta.
  rewrite M_bind_unfold. unfold of_result at 1.
  destruct (new_CalibrationState _ _ _ _ _ _); reflexivity.
Qed.

Lemma new_CalibrationState_cases id (s : float) (n : Z) t l r :
  ((0 <= s <= 1)%Q /\ (0 <= n)%Z /\
   new_CalibrationState id s n t l r = Ok (mkCalibrationState id s n t l r)) \/
  (((s < 0 \/ 1 < s)%Q \/ (n < 0)%Z) /\
   new_CalibrationState id s n t l r = Raise (ValidationError "CalibrationState")).
Proof.
  unfold new_CalibrationState.
  destruct (float_le 0.0 s) eqn:E0; [apply float_le_iff in E0 | apply float_le_false in E0];
  destruct (float_le s 1.0) eqn:E1; [apply float_le_iff in E1 | apply float_le_false in E1
                                    |apply float_le_iff in E1 | apply float_le_false in E1];
  destruct (0 <=? n)%Z eqn:En; [apply Z.leb_le in En | apply Z.leb_gt in En
                               |apply Z.leb_le in En | apply Z.leb_gt in En
                               |apply Z.leb_le in En | apply Z.leb_gt in En
                               |apply Z.leb_le in En | apply Z.leb_gt in En];
  simpl; first [ left; repeat split; [lra | lra | lia]
               | right; split; [|reflexivity];
                 first [ right; lia | left; left; lra | left; right; lra ] ].
Qed.

(** X1. [update_calibration_state] stores a record exactly when the score
    is in [0, 1] and the sample count is not negative: it then returns the
    record built from its arguments and the clock, the cache is the old
    one with that record under the cluster id, and
    [get_calibration_state] returns it.  Otherwise it raises the
    validation error, the cache is as before, and a record held for the
    cluster is still the one [get_calibration_state] returns. *)
Theorem update_succeeds_iff_valid (w : World) (id : string) (s : float) (n : Z)
    (flag : option bool) :
  ((exists st w', update_calibration_state id s n flag w = (Ok st, w'))
     <-> ((0 <= s <= 1)%Q /\ (0 <= n)%Z)) /\
  (forall st w', update_calibration_state id s n flag w = (Ok st, w') ->
     st = mkCalibrationState id s n (wall_clock w (clock_reads w))
            (n <? 50)%Z (default false flag) /\
     _calibration_cache w' = <[id := st]> (_calibration_cache w) /\
     _calibration_cache w' !! id = Some st /\
     get_calibration_state id w' = (Ok st, w')) /\
  (forall r w', update_calibration_state id s n flag w = (r, w') ->
     r = Raise (ValidationError "CalibrationState") \/ exists st, r = Ok st) /\
  (forall e w', update_calibration_state id s n flag w = (Raise e, w') ->
     e = ValidationError "CalibrationState" /\
     _calibration_cache w' = _calibration_cache w /\
     forall old, _calibration_cache w !! id = Some old ->
       get_calibration_state id w' = (Ok old, w')).
Proof.
  rewrite update_calibration_state_run.
  destruct (new_CalibrationState_cases id s n (wall_clock w (clock_reads w))
              (n <? 50)%Z (default false flag)) as [(Hs & Hn & ->) | (Hbad & ->)].
  - split; [split; [intros _; split; assumption | intros _; eexists _, _; reflexivity]|].
    split.
    { intros st w' [= <- <-]. split; [reflexivity|]. split; [reflexivity|].
      split; [simpl; apply lookup_insert_eq|].
      apply get_calibration_state_hit. simpl. apply lookup_insert_eq. }
    split; [intros r w' [= <- <-]; right; eexists; reflexivity|].
    intros e w' [=].
  - split.
    { split; [intros (st & w' & [=])|].
      intros [Hs Hn]. destruct Hbad as [[H|H]|H]; [lra | lra | lia]. }
    split; [intros st w' [=]|].
    split; [intros r w' [= <- <-]; left; reflexivity|].
    intros e w' [= <- <-]. split; [reflexivity|]. split; [reflexivity|].
    intros old Hold. apply get_calibration_state_hit. exact Hold.
Qed.

(** X2. An update, stored or rejected, leaves the records of all other
    clusters as they were. *)
Theorem update_leaves_other_clusters (w w' : World) (id id' : string) (s : float)
    (n : Z) (flag : option bool) (r : Result CalibrationState) :
  id <> id' ->
  update_calibration_state id s n flag w = (r, w') ->
  _calibration_cache w' !! id' = _calibration_cache w !! id' /\
  forall kept, _calibration_cache w !! id' = Some kept ->
    get_calibration_state id' w' = (Ok kept, w').
Proof.
  intros Hne. rewrite update_calibration_state_run. intros Hrun.
  assert (Hkeep : _calibration_cache w' !! id' = _calibration_cache w !! id').
  { destruct (new_CalibrationState _ _ _ _ _ _) as [st|e];
      injection Hrun as <- <-; simpl;
      [apply lookup_insert_ne; exact Hne | reflexivity]. }
  split; [exact Hkeep|].
  intros kept Hkept. apply get_calibration_state_hit. rewrite Hkeep. exact Hkept.
Qed.

Lemma update_leaves_other_clusters_witness :
  "slurm-hpc" <> "eks-prod" /\
  exists r w',
    update_calibration_state "slurm-hpc" 0.30 900 None sample_world = (r, w') /\
    _calibration_cache w' !! "eks-prod"
      = Some (mkCalibrationState "eks-prod" 0.92 1847 0 false false).
Proof.
  assert (Hne : "slurm-hpc" <> "eks-prod") by discriminate.
  split; [exact Hne|].
  eexists _, _. split; [reflexivity|].
  rewrite (proj1 (update_leaves_other_clusters sample_world _ "slurm-hpc" "eks-prod"
                    0.30 900 None _ Hne eq_refl)).
  vm_compute. reflexivity.
Defined.

(** X3. Last writer wins: after two updates of one cluster the cache is
    the one the second update alone would have left, whether the first had
    been stored or rejected; only the clock has been read once more. *)
Theorem last_update_wins (w w1 : World) (id : string) (s1 s2 : float) (n1 n2 : Z)
    (flag1 flag2 : option bool) (r1 : Result CalibrationState) :
  (0 <= s2 <= 1)%Q -> (0 <= n2)%Z ->
  update_calibration_state id s1 n1 flag1 w = (r1, w1) ->
  let st2 := mkCalibrationState id s2 n2 (wall_clock w (S (clock_reads w)))
               (n2 <? 50)%Z (default false flag2) in
  exists w2,
    update_calibration_state id s2 n2 flag2 w1 = (Ok st2, w2) /\
    _calibration_cache w2 = <[id := st2]> (_calibration_cache w) /\
    get_calibration_state id w2 = (Ok st2, w2).
Proof.
  intros Hs Hn Hfirst st2.
  rewrite update_calibration_state_run in Hfirst.
  rewrite (update_calibration_state_ok w1 id s2 n2 flag2 Hs Hn).
  destruct (new_CalibrationState _ _ _ _ _ _); injection Hfirst as <- <-;
    simpl; eexists; (split; [reflexivity|]); simpl;
    (split; [| apply get_calibration_state_hit; simpl; apply lookup_insert_eq]).
  - apply insert_insert_eq.
  - reflexivity.
Qed.

Lemma last_update_wins_witness :
  (0 <= 0.95 <= 1)%Q /\ (0 <= 50)%Z /\
  exists r1 w1 w2,
    update_calibration_state "small-sample" 0.95 49 None ticking_world = (r1, w1) /\
    update_calibration_state "small-sample" 0.95 50 None w1
      = (Ok (mkCalibrationState "small-sample" 0.95 50 1 false false), w2) /\
    get_calibration_state "small-sample" w2
      = (Ok (mkCalibrationState "small-sample" 0.95 50 1 false false), w2).
Proof.
  assert (Hs : (0 <= 0.95 <= 1)%Q) by (split; vm_compute; discriminate).
  assert (Hn : (0 <= 50)%Z) by lia.
  split; [exact Hs|]. split; [exact Hn|].
  eexists _, _.
  destruct (last_update_wins ticking_world _ "small-sample" 0.95 0.95 49 50 None None
              _ Hs Hn eq_refl) as (w2 & Hrun & _ & Hget).
  exists w2. split; [reflexivity|]. split; [exact Hrun | exact Hget].
Defined.

(** *** The invariant of the cache *)

Lemma state_valid_default (id : string) (t : datetime) :
  state_valid id (mkCalibrationState id 0.5 0 t true false).
Proof. repeat split; simpl; lra || lia || reflexivity. Qed.

Lemma state_valid_new id (s : float) (n : Z) t r (st : CalibrationState) :
  new_CalibrationState id s n t (n <? 50)%Z r = Ok st -> state_valid id st.
Proof.
  destruct (new_CalibrationState_cases id s n t (n <? 50)%Z r)
    as [(Hs & Hn & ->) | (_ & ->)]; intros [= <-].
  repeat split; simpl; try tauto; reflexivity.
Qed.

Lemma cache_valid_fetch (w w' : World) (id : string) (st : CalibrationState) :
  cache_valid w ->
  get_calibration_state id w = (Ok st, w') ->
  state_valid id st /\ _calibration_cache w' = _calibration_cache w.
Proof.
  intros Hw. destruct (_calibration_cache w !! id) as [held|] eqn:E.
  - rewrite (get_calibration_state_hit _ _ _ E). intros [= <- <-].
    split; [exact (Hw id held E) | reflexivity].
  - rewrite (get_calibration_state_miss _ _ E). intros [= <- <-].
    split; [apply state_valid_default | reflexivity].
Qed.

Lemma cache_valid_same (w w' : World) :
  _calibration_cache w' = _calibration_cache w -> cache_valid w -> cache_valid w'.
Proof. unfold cache_valid. intros ->. tauto. Qed.

Lemma cache_valid_update (w w' : World) (id : string) (s : float) (n : Z)
    (flag : option bool) (r : Result CalibrationState) :
  cache_valid w ->
  update_calibration_state id s n flag w = (r, w') ->
  cache_valid w'.
Proof.
  intros Hw. rewrite update_calibration_state_run.
  destruct (new_CalibrationState _ _ _ _ _ _) as [st|e] eqn:E; intros [= <- <-].
  - unfold cache_valid. simpl. apply map_Forall_insert_2; [|exact Hw].
    exact (state_valid_new _ _ _ _ _ _ E).
  - exact Hw.
Qed.

Lemma cache_valid_get (w w' : World) (id : string) (r : Result CalibrationState) :
  cache_valid w -> get_calibration_state id w = (r, w') -> cache_valid w'.
Proof.
  intros Hw.
  destruct (get_calibration_state_total w id) as (st & w0 & -> & Hsame).
  intros [= <- <-]. exact (cache_valid_same _ _ Hsame Hw).
Qed.

Lemma sample_world_valid : cache_valid sample_world.
Proof.
  unfold cache_valid, sample_world. simpl.
  repeat (apply map_Forall_insert_2;
          [repeat split; simpl; reflexivity || (vm_compute; discriminate)|]).
  apply map_Forall_empty.
Qed.

Lemma ticking_world_valid : cache_valid ticking_world.
Proof. apply map_Forall_empty. Qed.

(** ** The monitor *)

(** The verdict of [check_calibration_drift], as a function of the ratio. *)
Lemma check_calibration_drift_verdict (current_ece baseline_ece : float) :
  exists d, check_calibration_drift current_ece baseline_ece = Ok d /\
    (severity d, action d) =
      (if float_le (drift_ratio d) 1.5 then ("none", "continue")
       else if float_le (drift_ratio d) 2.0 then ("moderate", "monitor")
       else if float_le (drift_ratio d) 5.0 then ("significant", "reduce_autonomy")
       else ("critical", "trigger_recalibration")).
Proof.
  destruct (check_calibration_drift_ratio current_ece baseline_ece)
    as (d & Hd & _). exists d. split; [exact Hd|].
  revert Hd. unfold check_calibration_drift.
  destruct (py_truediv _ _) as [r|e]; [|discriminate].
  destruct (float_le r 1.5) eqn:E15; [|destruct (float_le r 2.0) eqn:E20;
    [|destruct (float_le r 5.0) eqn:E50]]; intros [= <-]; simpl;
    rewrite ?E15, ?E20, ?E50; reflexivity.
Qed.

(** The drift a stored score stands for: the ratio is [(1 - s) / 0.09]. *)
Lemma drift_of_score_verdict (s : float) :
  exists d, drift_of_score s = Ok d /\
    (drift_ratio d * 0.09 == 1 - s)%Q /\
    (severity d, action d) =
      (if float_le (drift_ratio d) 1.5 then ("none", "continue")
       else if float_le (drift_ratio d) 2.0 then ("moderate", "monitor")
       else if float_le (drift_ratio d) 5.0 then ("significant", "reduce_autonomy")
       else ("critical", "trigger_recalibration")).
Proof.
  unfold drift_of_score, py_truediv.
  change (Qeq_bool 5.0 0) with false. cbv iota.
  destruct (check_calibration_drift_verdict ((1.0 - s) / 5.0) 0.018)
    as (d & Hd & Hv).
  destruct (check_calibration_drift_ratio ((1.0 - s) / 5.0) 0.018)
    as (d' & Hd' & _ & Hpos).
  rewrite Hd in Hd'. injection Hd' as <-.
  exists d. split; [exact Hd|]. split; [|exact Hv].
  rewrite Hpos by reflexivity. field.
Qed.

Lemma _check_drift_run (w w0 : World) (id : string) (st : CalibrationState)
    (d : DriftStatus) :
  get_calibration_state id w = (Ok st, w0) ->
  drift_of_score (score st) = Ok d ->
  _check_drift id w = (Ok (drift_report id st d), w0).
Proof.
  intros Hget Hd. unfold _check_drift.
  rewrite M_bind_unfold, Hget. cbv iota beta.
  revert Hd. unfold drift_of_score.
  rewrite M_bind_unfold. unfold of_result at 1.
  destruct (py_truediv _ _) as [current|e]; [|discriminate].
  intros Hd. cbv iota beta zeta.
  rewrite M_bind_unfold. unfold of_result at 1. rewrite Hd. reflexivity.
Qed.


(** The verdict on a stored score, by the score. *)
Lemma drift_of_score_by_score (s : float) (d : DriftStatus) :
  drift_of_score s = Ok d ->
  ((severity d = "none" /\ action d = "continue") <-> (0.865 <= s)%Q) /\
  ((severity d = "moderate" /\ action d = "monitor")
     <-> (0.82 <= s /\ s < 0.865)%Q) /\
  ((severity d = "significant" /\ action d = "reduce_autonomy")
     <-> (0.55 <= s /\ s < 0.82)%Q) /\
  ((severity d = "critical" /\ action d = "trigger_recalibration")
     <-> (s < 0.55)%Q).
Proof.
  intros Hd. destruct (drift_of_score_verdict s) as (d' & Hd' & Hr & Hv).
  rewrite Hd in Hd'. injection Hd' as <-.
  revert Hv. float_cases; intros [= -> ->];
    repeat split; intros; try discriminate; try tauto; try lra;
    match goal with H : _ /\ _ |- _ => destruct H; try discriminate; try lra end.
Qed.

(** X5. The severity [_check_drift] reports is a function of the stored
    score alone: none from 0.865 up, moderate on [0.82, 0.865),
    significant on [0.55, 0.82) and critical below 0.55. *)
Theorem check_drift_severity_by_score (w : World) (id : string) :
  exists st d w',
    get_calibration_state id w = (Ok st, w') /\
    _check_drift id w = (Ok (drift_report id st d), w') /\
    ((severity d = "none" /\ action d = "continue")
       <-> (0.865 <= score st)%Q) /\
    ((severity d = "moderate" /\ action d = "monitor")
       <-> (0.82 <= score st /\ score st < 0.865)%Q) /\
    ((severity d = "significant" /\ action d = "reduce_autonomy")
       <-> (0.55 <= score st /\ score st < 0.82)%Q) /\
    ((severity d = "critical" /\ action d = "trigger_recalibration")
       <-> (score st < 0.55)%Q).
Proof.
  destruct (get_calibration_state_total w id) as (st & w' & Hget & _).
  destruct (drift_of_score_verdict (score st)) as (d & Hd & _).
  exists st, d, w'. split; [exact Hget|].
  split; [exact (_check_drift_run _ _ _ _ _ Hget Hd)|].
  exact (drift_of_score_by_score _ _ Hd).
Qed.

(** X6. For a cluster the cache does not hold, [_check_drift] reports
    critical drift and asks for recalibration: the default score 0.5
    stands for 5.6 times the baseline error. *)
Theorem check_drift_unseen_is_critical (w : World) (id : string) :
  _calibration_cache w !! id = None ->
  exists d w',
    _check_drift id w
      = (Ok (drift_report id
               (mkCalibrationState id 0.5 0 (wall_clock w (clock_reads w)) true false)
               d), w') /\
    severity d = "critical" /\
    action d = "trigger_recalibration" /\
    message d = "ECE increased 5.6× — recalibration required" /\
    _calibration_cache w' = _calibration_cache w.
Proof.
  intros Hmiss.
  eexists _, _. split.
  - apply (_check_drift_run _ _ _ _ _ (get_calibration_state_miss _ _ Hmiss)).
    vm_compute. reflexivity.
  - repeat split.
Qed.

Lemma check_drift_unseen_is_critical_witness :
  _calibration_cache ticking_world !! "never-seen-before" = None /\
  exists d w',
    _check_drift "never-seen-before" ticking_world
      = (Ok (drift_report "never-seen-before"
               (mkCalibrationState "never-seen-before" 0.5 0 0 true false) d), w') /\
    severity d = "critical" /\
    action d = "trigger_recalibration" /\
    message d = "ECE increased 5.6× — recalibration required" /\
    _calibration_cache w' = ∅.
Proof.
  assert (H : _calibration_cache ticking_world !! "never-seen-before" = None)
    by reflexivity.
  split; [exact H|].
  exact (check_drift_unseen_is_critical ticking_world "never-seen-before" H).
Defined.

(** X7. Drift and scope agree on one stored record: when [_check_drift]
    asks for recalibration the scope is ESCALATE, when it asks to reduce
    autonomy the scope is not AUTONOMOUS, and an AUTONOMOUS scope comes
    only with the verdicts continue or monitor. *)
Theorem drift_alarm_excludes_autonomy (w : World) (id : string) :
  exists st d sc w',
    _check_drift id w = (Ok (drift_report id st d), w') /\
    check_action_scope id w = (Ok sc, w') /\
    (action d = "trigger_recalibration" -> sc = ESCALATE) /\
    (action d = "reduce_autonomy" -> sc <> AUTONOMOUS) /\
    (sc = AUTONOMOUS -> action d = "continue" \/ action d = "monitor").
Proof.
  destruct (get_calibration_state_total w id) as (st & w' & Hget & _).
  destruct (drift_of_score_verdict (score st)) as (d & Hd & Hr & Hv).
  exists st, d, (determine_action_scope st), w'.
  split; [exact (_check_drift_run _ _ _ _ _ Hget Hd)|].
  split; [unfold check_action_scope; rewrite M_bind_unfold, Hget; reflexivity|].
  revert Hv. unfold determine_action_scope.
  destruct ((sample_count st <? 50)%Z || is_learning_mode st);
    float_cases; intros [= _ ->];
    repeat split; intros; try discriminate; try tauto; try lra.
Qed.

Lemma _trigger_recalibration_run (w w0 : World) (id why : string)
    (st : CalibrationState) :
  get_calibration_state id w = (Ok st, w0) ->
  _trigger_recalibration id why w =
    match update_calibration_state id (score st) (sample_count st) (Some true) w0 with
    | (Ok updated, w1) =>
        (Ok (mkToolResult true
               (Some [ ("cluster_id", PyStr id);
                       ("reason", PyStr why);
                       ("recalibration_flagged", PyBool true);
                       ("state", PyDict (CalibrationState_model_dump updated)) ])
               None), w1)
    | (Raise e, w1) => (Raise e, w1)
    end.
Proof.
  intros Hget. unfold _trigger_recalibration.
  rewrite M_bind_unfold, Hget. cbv iota beta. rewrite M_bind_unfold.
  destruct (update_calibration_state _ _ _ _ _) as [[up|e] w1]; reflexivity.
Qed.

(** X8. On a cache built by updates, flagging a cluster for recalibration
    never fails and changes nothing but the flag and the time stamp: the
    stored score, sample count and learning flag stay, so the scope of the
    cluster stays, and the records of other clusters stay. *)
Theorem trigger_recalibration_keeps_scope (w : World) (id why : string) :
  cache_valid w ->
  exists st w0 res st' w1,
    get_calibration_state id w = (Ok st, w0) /\
    _trigger_recalibration id why w = (Ok res, w1) /\
    success res = true /\
    _calibration_cache w1 !! id = Some st' /\
    score st' = score st /\
    sample_count st' = sample_count st /\
    is_learning_mode st' = is_learning_mode st /\
    recalibration_needed st' = true /\
    determine_action_scope st' = determine_action_scope st /\
    forall id', id <> id' -> _calibration_cache w1 !! id' = _calibration_cache w !! id'.
Proof.
  intros Hw.
  destruct (get_calibration_state_total w id) as (st & w0 & Hget & Hsame).
  destruct (cache_valid_fetch _ _ _ _ Hw Hget) as ((_ & Hs & Hn & Hl) & _).
  exists st, w0. eexists _, _, _. split; [exact Hget|].
  rewrite (_trigger_recalibration_run _ _ _ _ _ Hget).
  rewrite (update_calibration_state_ok w0 id _ _ (Some true) Hs Hn).
  split; [reflexivity|]. split; [reflexivity|].
  split; [simpl; apply lookup_insert_eq|].
  split; [reflexivity|]. split; [reflexivity|].
  split; [simpl; symmetry; exact Hl|]. split; [reflexivity|].
  split.
  - unfold determine_action_scope. simpl. rewrite Hl. reflexivity.
  - intros id' Hne. simpl. rewrite lookup_insert_ne by exact Hne.
    rewrite Hsame. reflexivity.
Qed.

Lemma trigger_recalibration_keeps_scope_witness :
  cache_valid sample_world /\
  exists st w0 res st' w1,
    get_calibration_state "eks-prod" sample_world = (Ok st, w0) /\
    _trigger_recalibration "eks-prod" "drift" sample_world = (Ok res, w1) /\
    success res = true /\
    _calibration_cache w1 !! "eks-prod" = Some st' /\
    score st' = score st /\
    sample_count st' = sample_count st /\
    is_learning_mode st' = is_learning_mode st /\
    recalibration_needed st' = true /\
    determine_action_scope st' = determine_action_scope st /\
    forall id', "eks-prod" <> id' ->
      _calibration_cache w1 !! id' = _calibration_cache sample_world !! id'.
Proof.
  split; [exact sample_world_valid|].
  exact (trigger_recalibration_keeps_scope sample_world "eks-prod" "drift"
           sample_world_valid).
Defined.

(** X9. Flagging a cluster the cache does not hold stores a record for it:
    the learning-mode default, flagged, stamped with the second of the two
    clock readings the call makes. *)
Theorem trigger_recalibration_stores_unseen (w : World) (id why : string) :
  _calibration_cache w !! id = None ->
  let stored := mkCalibrationState id 0.5 0 (wall_clock w (S (clock_reads w)))
                  true true in
  exists res,
    _trigger_recalibration id why w
      = (Ok res, mkWorld (<[id := stored]> (_calibration_cache w)) (wall_clock w)
                   (S (S (clock_reads w)))) /\
    success res = true /\
    get_calibration_state id
        (mkWorld (<[id := stored]> (_calibration_cache w)) (wall_clock w)
           (S (S (clock_reads w))))
      = (Ok stored,
         mkWorld (<[id := stored]> (_calibration_cache w)) (wall_clock w)
           (S (S (clock_reads w)))).
Proof.
  intros Hmiss stored.
  rewrite (_trigger_recalibration_run _ _ _ _ _ (get_calibration_state_miss _ _ Hmiss)).
  rewrite update_calibration_state_run. simpl.
  eexists. split; [reflexivity|]. split; [reflexivity|].
  apply get_calibration_state_hit. simpl. apply lookup_insert_eq.
Qed.

Lemma trigger_recalibration_stores_unseen_witness :
  _calibration_cache ticking_world !! "never-seen-before" = None /\
  exists res,
    _trigger_recalibration "never-seen-before" "drift" ticking_world
      = (Ok res,
         mkWorld (<["never-seen-before" :=
                      mkCalibrationState "never-seen-before" 0.5 0 1 true true]> ∅)
           Z.of_nat 2) /\
    success res = true.
Proof.
  assert (H : _calibration_cache ticking_world !! "never-seen-before" = None)
    by reflexivity.
  split; [exact H|].
  destruct (trigger_recalibration_stores_unseen ticking_world "never-seen-before"
              "drift" H) as (res & Hrun & Hok & _).
  exists res. split; [exact Hrun | exact Hok].
Defined.

Lemma _update_profile_run (w : World) (id : string) (metrics : Metrics) :
  _update_profile id metrics w =
    match update_calibration_state id
            (ece_to_calibration_score (default 0.1%Q (metrics_ece metrics)))
            (default 0%Z (metrics_sample_count metrics)) None w with
    | (Ok updated, w1) =>
        (Ok (mkToolResult true
               (Some [ ("cluster_id", PyStr id);
                       ("state", PyDict (CalibrationState_model_dump updated)) ])
               None), w1)
    | (Raise e, w1) => (Raise e, w1)
    end.
Proof.
  unfold _update_profile. rewrite M_bind_unfold.
  destruct (update_calibration_state _ _ _ _ _) as [[up|e] w1]; reflexivity.
Qed.

(** The record a profile update stores. *)
Lemma _update_profile_ok (w : World) (id : string) (metrics : Metrics) :
  (0 <= default 0 (metrics_sample_count metrics))%Z ->
  let n := default 0%Z (metrics_sample_count metrics) in
  let st := mkCalibrationState id
              (ece_to_calibration_score (default 0.1%Q (metrics_ece metrics)))
              n (wall_clock w (clock_reads w)) (n <? 50)%Z false in
  exists res,
    _update_profile id metrics w
      = (Ok res, mkWorld (<[id := st]> (_calibration_cache w)) (wall_clock w)
                   (S (clock_reads w))) /\
    success res = true.
Proof.
  intros Hn n st. rewrite _update_profile_run.
  rewrite (update_calibration_state_ok w id _ _ None
             (ece_to_calibration_score_range _) Hn).
  eexists. split; reflexivity.
Qed.

(** X10. [_update_profile] fails exactly when the metrics carry a negative
    sample count, whatever the error they carry (the score is clamped
    into the range the record admits); the failure is the validation
    error and leaves the cache as it was. *)
Theorem profile_update_fails_iff_negative_count (w : World) (id : string)
    (metrics : Metrics) :
  ((exists res w', _update_profile id metrics w = (Ok res, w'))
     <-> (0 <= default 0 (metrics_sample_count metrics))%Z) /\
  (forall e w', _update_profile id metrics w = (Raise e, w') ->
     e = ValidationError "CalibrationState" /\
     (default 0 (metrics_sample_count metrics) < 0)%Z /\
     _calibration_cache w' = _calibration_cache w).
Proof.
  destruct (Z_le_gt_dec 0 (default 0%Z (metrics_sample_count metrics))) as [Hn|Hn].
  - destruct (_update_profile_ok w id metrics Hn) as (res & Hrun & _).
    rewrite Hrun. split.
    + split; [intros _; exact Hn | intros _; eexists _, _; reflexivity].
    + intros e w' [=].
  - rewrite _update_profile_run, update_calibration_state_run.
    destruct (new_CalibrationState_cases id
                (ece_to_calibration_score (default 0.1%Q (metrics_ece metrics)))
                (default 0%Z (metrics_sample_count metrics))
                (wall_clock w (clock_reads w))
                (default 0%Z (metrics_sample_count metrics) <? 50)%Z
                (default false None)) as [(_ & Hpos & _) | (_ & ->)]; [lia|].
    split.
    + split; [intros (res & w' & [=]) | lia].
    + intros e w' [= <- <-]. split; [reflexivity|]. split; [lia | reflexivity].
Qed.

(** X11. A profile update whose metrics carry no sample count stores a
    sample count of 0 and the learning flag, whatever the cluster held
    before and whatever the error: the cluster falls back to ESCALATE.
    With no error either, the stored score is 0.5. *)
Theorem profile_without_sample_count_resets_learning (w : World) (id : string)
    (ece : option float) :
  exists res st w',
    _update_profile id (mkMetrics ece None) w = (Ok res, w') /\
    _calibration_cache w' !! id = Some st /\
    sample_count st = 0%Z /\
    is_learning_mode st = true /\
    recalibration_needed st = false /\
    (ece = None -> (score st == 0.5)%Q) /\
    check_action_scope id w' = (Ok ESCALATE, w').
Proof.
  assert (Hn : (0 <= default 0 (metrics_sample_count (mkMetrics ece None)))%Z)
    by (simpl; lia).
  destruct (_update_profile_ok w id (mkMetrics ece None) Hn) as (res & Hrun & _).
  eexists _, _, _. split; [exact Hrun|].
  split; [simpl; apply lookup_insert_eq|].
  split; [reflexivity|]. split; [reflexivity|]. split; [reflexivity|].
  split; [intros ->; reflexivity|].
  unfold check_action_scope. rewrite M_bind_unfold.
  erewrite get_calibration_state_hit by (simpl; apply lookup_insert_eq).
  reflexivity.
Qed.

(** *** Every operation keeps the invariant *)

Lemma cache_valid_check_drift (w w' : World) (id : string) (r : Result ToolResult) :
  cache_valid w -> _check_drift id w = (r, w') -> cache_valid w'.
Proof.
  intros Hw.
  destruct (get_calibration_state_total w id) as (st & w0 & Hget & Hsame).
  destruct (drift_of_score_verdict (score st)) as (d & Hd & _).
  rewrite (_check_drift_run _ _ _ _ _ Hget Hd). intros [= <- <-].
  exact (cache_valid_same _ _ Hsame Hw).
Qed.

Lemma cache_valid_trigger (w w' : World) (id why : string) (r : Result ToolResult) :
  cache_valid w -> _trigger_recalibration id why w = (r, w') -> cache_valid w'.
Proof.
  intros Hw.
  destruct (get_calibration_state_total w id) as (st & w0 & Hget & Hsame).
  rewrite (_trigger_recalibration_run _ _ _ _ _ Hget).
  destruct (update_calibration_state _ _ _ _ _) as [[up|e] w1] eqn:E;
    intros [= <- <-];
    exact (cache_valid_update _ _ _ _ _ _ _ (cache_valid_same _ _ Hsame Hw) E).
Qed.

Lemma cache_valid_update_profile (w w' : World) (id : string) (metrics : Metrics)
    (r : Result ToolResult) :
  cache_valid w -> _update_profile id metrics w = (r, w') -> cache_valid w'.
Proof.
  intros Hw. rewrite _update_profile_run.
  destruct (update_calibration_state _ _ _ _ _) as [[up|e] w1] eqn:E;
    intros [= <- <-]; exact (cache_valid_update _ _ _ _ _ _ _ Hw E).
Qed.

(** X14. The cache keeps its invariant: it holds it when empty, and
    [get_calibration_state], [update_calibration_state], [_check_drift],
    [_trigger_recalibration] and [_update_profile] each leave a cache in
    which every record is stored under its own cluster id, has a score in
    [0, 1] and a sample count that is not negative, and carries the
    learning flag [sample_count < 50], whether they return or raise.  A
    state read from such a cache, stored or default, has these properties
    too. *)
Theorem cache_invariant_preserved :
  (forall clock reads, cache_valid (mkWorld ∅ clock reads)) /\
  forall w : World, cache_valid w ->
    (forall id r w', get_calibration_state id w = (r, w') -> cache_valid w') /\
    (forall id s n flag r w',
       update_calibration_state id s n flag w = (r, w') -> cache_valid w') /\
    (forall id r w', _check_drift id w = (r, w') -> cache_valid w') /\
    (forall id why r w',
       _trigger_recalibration id why w = (r, w') -> cache_valid w') /\
    (forall id metrics r w',
       _update_profile id metrics w = (r, w') -> cache_valid w') /\
    (forall id st w', get_calibration_state id w = (Ok st, w') -> state_valid id st).
Proof.
  split; [intros clock reads; apply map_Forall_empty|].
  intros w Hw.
  split; [intros id r w'; apply cache_valid_get, Hw|].
  split; [intros id s n flag r w'; apply cache_valid_update, Hw|].
  split; [intros id r w'; apply cache_valid_check_drift, Hw|].
  split; [intros id why r w'; apply cache_valid_trigger, Hw|].
  split; [intros id metrics r w'; apply cache_valid_update_profile, Hw|].
  intros id st w' Hget. exact (proj1 (cache_valid_fetch _ _ _ _ Hw Hget)).
Qed.

(** ** The predictor *)

Lemma predict_with_calibration_run (w w0 : World) (job id : string)
    (st : CalibrationState) :
  get_calibration_state id w = (Ok st, w0) ->
  predict_with_calibration job id w =
    (Ok (if decide (determine_action_scope st = ESCALATE) then
           [ ("job_id", PyStr job);
             ("cluster_id", PyStr id);
             ("prediction", PyNone);
             ("message", PyStr "Predictions unreliable for this environment");
             ("action_scope", PyStr "escalate");
             ("calibration_score", PyFloat (score st)) ]
         else
           [ ("job_id", PyStr job);
             ("cluster_id", PyStr id);
             ("prediction", PyDict [ ("wait_time_seconds", PyInt 3600);
                                     ("confidence", PyFloat 0.87) ]);
             ("action_scope", PyStr (ActionScope_value (determine_action_scope st)));
             ("calibration_score", PyFloat (score st)) ]),
     w0).
Proof.
  intros Hget. unfold predict_with_calibration.
  rewrite M_bind_unfold, Hget. cbv iota beta zeta.
  case_decide as Hs; [rewrite Hs|]; reflexivity.
Qed.

(** X15. [predict_with_calibration] never fails, makes no tool call and
    never writes to the cache.  It withholds the prediction (the key
    holds [None], and the message says predictions are unreliable)
    exactly when the scope of the cluster is ESCALATE; in every case it
    reports the scope and the score it read. *)
Theorem prediction_withheld_iff_escalate (w : World) (job id : string) :
  exists st out w',
    get_calibration_state id w = (Ok st, w') /\
    predict_with_calibration job id w = (Ok out, w') /\
    _calibration_cache w' = _calibration_cache w /\
    (pydict_get "prediction" out = Some PyNone
       <-> determine_action_scope st = ESCALATE) /\
    (pydict_get "prediction" out
       = Some (PyDict [ ("wait_time_seconds", PyInt 3600);
                        ("confidence", PyFloat 0.87) ])
       <-> determine_action_scope st <> ESCALATE) /\
    (pydict_get "message" out
       = Some (PyStr "Predictions unreliable for this environment")
       <-> determine_action_scope st = ESCALATE) /\
    (pydict_get "message" out = None <-> determine_action_scope st <> ESCALATE) /\
    pydict_get "action_scope" out
      = Some (PyStr (ActionScope_value (determine_action_scope st))) /\
    pydict_get "calibration_score" out = Some (PyFloat (score st)) /\
    pydict_get "job_id" out = Some (PyStr job) /\
    pydict_get "cluster_id" out = Some (PyStr id).
Proof.
  destruct (get_calibration_state_total w id) as (st & w' & Hget & Hsame).
  exists st. eexists _, w'. split; [exact Hget|].
  split; [exact (predict_with_calibration_run _ _ job _ _ Hget)|].
  split; [exact Hsame|].
  case_decide as Hs; [rewrite Hs|]; cbn [pydict_get String.eqb Ascii.eqb Bool.eqb];
    repeat split; intros; try discriminate; try congruence; try reflexivity.
Qed.

(** X16. For a cluster the cache does not hold, the prediction is
    withheld and the default score 0.5 is reported; nothing is stored. *)
Theorem prediction_unseen_is_withheld (w : World) (job id : string) :
  _calibration_cache w !! id = None ->
  predict_with_calibration job id w =
    (Ok [ ("job_id", PyStr job);
          ("cluster_id", PyStr id);
          ("prediction", PyNone);
          ("message", PyStr "Predictions unreliable for this environment");
          ("action_scope", PyStr "escalate");
          ("calibration_score", PyFloat 0.5) ],
     mkWorld (_calibration_cache w) (wall_clock w) (S (clock_reads w))).
Proof.
  intros Hmiss.
  rewrite (predict_with_calibration_run _ _ job _ _
             (get_calibration_state_miss _ _ Hmiss)).
  reflexivity.
Qed.

Lemma prediction_unseen_is_withheld_witness :
  _calibration_cache ticking_world !! "never-seen-before" = None /\
  predict_with_calibration "job-17" "never-seen-before" ticking_world =
    (Ok [ ("job_id", PyStr "job-17");
          ("cluster_id", PyStr "never-seen-before");
          ("prediction", PyNone);
          ("message", PyStr "Predictions unreliable for this environment");
          ("action_scope", PyStr "escalate");
          ("calibration_score", PyFloat 0.5) ],
     mkWorld ∅ Z.of_nat 1).
Proof.
  assert (H : _calibration_cache ticking_world !! "never-seen-before" = None)
    by reflexivity.
  split; [exact H|].
  exact (prediction_unseen_is_withheld ticking_world "job-17" "never-seen-before" H).
Defined.

(** ** The executor *)

(** One gated execution, by the scope and by what the collaborator
    answers: the result, the world and the calls made. *)
Lemma execute_with_gating_trace (handler : ToolHandler) (id act : string)
    (params : pydict) (x : Exec) (st : CalibrationState) (w1 : World) :
  get_calibration_state id (world x) = (Ok st, w1) ->
  exists r w' made,
    execute_with_gating handler id act params x = (r, mkExec w' (invoked x ++ made)) /\
    match determine_action_scope st with
    | ESCALATE =>
        made = [escalate_call st id act params] /\
        exists sent,
          handler (invoked x) "tool_escalate_to_human"
            (escalation_parameters st id act params) w1 = (sent, w') /\
          r = match sent with
              | Ok _ => Ok (mkGatedOutcome false
                              (Some "Escalated to human due to low calibration")
                              None None "escalate")
              | Raise e => Raise e
              end
    | AUTONOMOUS =>
        made = [run_call act params] /\
        exists ran,
          handler (invoked x) act params w1 = (ran, w') /\
          r = match ran with
              | Ok res => Ok (mkGatedOutcome true None (Some res) (Some false)
                                "autonomous")
              | Raise e => Raise e
              end
    | NOTIFY =>
        (exists e, handler (invoked x) act params w1 = (Raise e, w') /\
                   made = [run_call act params] /\ r = Raise e) \/
        (exists res w2 sent,
           handler (invoked x) act params w1 = (Ok res, w2) /\
           handler (invoked x ++ [run_call act params]) "tool_send_slack_notification"
             (notification_parameters act) w2 = (sent, w') /\
           made = [run_call act params; notify_call act] /\
           r = match sent with
               | Ok _ => Ok (mkGatedOutcome true None (Some res) (Some true) "notify")
               | Raise e => Raise e
               end)
    end.
Proof.
  intros Hget. destruct (determine_action_scope st) eqn:Hs.
  - rewrite (execute_with_gating_autonomous handler id act params x st w1 Hget Hs).
    destruct (handler (invoked x) act params w1) as [[res|e] w2];
      eexists _, _, _; (split; [reflexivity|]); (split; [reflexivity|]);
      eexists; split; reflexivity.
  - rewrite (execute_with_gating_notify handler id act params x st w1 Hget Hs).
    destruct (handler (invoked x) act params w1) as [[res|e] w2].
    + destruct (handler (invoked x ++ [run_call act params]) _ _ w2)
        as [[res'|e] w3] eqn:Hsent;
        eexists _, _, [run_call act params; notify_call act];
        (split; [rewrite <- app_assoc; reflexivity|]); right;
        eexists _, _, _; (split; [reflexivity|]); (split; [exact Hsent|]);
        split; reflexivity.
    + eexists _, _, _. split; [reflexivity|]. left.
      eexists. split; [reflexivity|]. split; reflexivity.
  - rewrite (execute_with_gating_escalate handler id act params x st w1 Hget Hs).
    destruct (handler (invoked x) _ _ w1) as [[res|e] w2];
      eexists _, _, _; (split; [reflexivity|]); (split; [reflexivity|]);
      eexists; split; reflexivity.
Qed.

(** X17. The calls of one gated execution are the escalation alone, the
    action alone, or the action followed by the notification: never more
    than two, the notification never first.  The escalation is called
    exactly in the ESCALATE scope; the notification is called only in the
    NOTIFY scope, and only after the action call has returned. *)
Theorem gated_execution_call_order (handler : ToolHandler) (id act : string)
    (params : pydict) (x : Exec) :
  exists st w1 r x' made,
    get_calibration_state id (world x) = (Ok st, w1) /\
    execute_with_gating handler id act params x = (r, x') /\
    invoked x' = invoked x ++ made /\
    (made = [escalate_call st id act params] \/
     made = [run_call act params] \/
     made = [run_call act params; notify_call act]) /\
    (made = [escalate_call st id act params]
       <-> determine_action_scope st = ESCALATE) /\
    (made = [run_call act params; notify_call act] ->
       determine_action_scope st = NOTIFY /\
       exists res w2, handler (invoked x) act params w1 = (Ok res, w2)) /\
    (determine_action_scope st = AUTONOMOUS -> made = [run_call act params]).
Proof.
  destruct (get_calibration_state_total (world x) id) as (st & w1 & Hget & _).
  destruct (execute_with_gating_trace handler id act params x st w1 Hget)
    as (r & w' & made & Hrun & Hshape).
  exists st, w1, r, (mkExec w' (invoked x ++ made)), made.
  split; [exact Hget|]. split; [exact Hrun|]. split; [reflexivity|].
  destruct (determine_action_scope st).
  - destruct Hshape as (-> & _).
    split; [right; left; reflexivity|].
    split; [split; intros; discriminate|].
    split; [intros; discriminate | reflexivity].
  - destruct Hshape as [(e & _ & -> & _) | (res & w2 & sent & Hact & _ & -> & _)].
    + split; [right; left; reflexivity|].
      split; [split; intros; discriminate|].
      split; [intros; discriminate | intros; discriminate].
    + split; [right; right; reflexivity|].
      split; [split; intros; discriminate|].
      split; [intros _; split; [reflexivity | eexists _, _; exact Hact]
             | intros; discriminate].
  - destruct Hshape as (-> & _).
    split; [left; reflexivity|].
    split; [split; reflexivity|].
    split; intros; discriminate.
Qed.

(** X18. Predictor and executor gate alike: on one world, the action is
    called exactly when [predict_with_calibration] gives a prediction,
    and not called exactly when it withholds it. *)
Theorem prediction_iff_action_runs (handler : ToolHandler) (job id act : string)
    (params : pydict) (x : Exec) :
  exists out w' r x' made,
    predict_with_calibration job id (world x) = (Ok out, w') /\
    execute_with_gating handler id act params x = (r, x') /\
    invoked x' = invoked x ++ made /\
    (pydict_get "prediction" out = Some PyNone
       <-> calls_from RunAction made = []) /\
    (pydict_get "prediction" out <> Some PyNone
       <-> calls_from RunAction made = [run_call act params]).
Proof.
  destruct (get_calibration_state_total (world x) id) as (st & w1 & Hget & _).
  destruct (execute_with_gating_trace handler id act params x st w1 Hget)
    as (r & w' & made & Hrun & Hshape).
  eexists _, w1, r, (mkExec w' (invoked x ++ made)), made.
  split; [exact (predict_with_calibration_run _ _ job _ _ Hget)|].
  split; [exact Hrun|]. split; [reflexivity|].
  destruct (determine_action_scope st).
  - destruct Hshape as (-> & _). case_decide; [discriminate|].
    cbn. repeat case_decide; try congruence. split; split; intros; congruence.
  - case_decide; [discriminate|].
    destruct Hshape as [(e & _ & -> & _) | (res & w2 & sent & _ & _ & -> & _)];
      cbn; repeat case_decide; try congruence; split; split; intros; congruence.
  - destruct Hshape as (-> & _). case_decide; [|congruence].
    cbn. repeat case_decide; try congruence. split; split; intros; congruence.
Qed.

(** X19. When the action call raises, in the NOTIFY or in the AUTONOMOUS
    scope, the exception reaches the caller as it is: the action is the
    only call made, no notification and no escalation follow, and the
    world is the one the action left. *)
Theorem action_exception_propagates (handler : ToolHandler) (id act : string)
    (params : pydict) (x : Exec) (st : CalibrationState) (w1 w2 : World) (e : exn) :
  get_calibration_state id (world x) = (Ok st, w1) ->
  determine_action_scope st <> ESCALATE ->
  handler (invoked x) act params w1 = (Raise e, w2) ->
  execute_with_gating handler id act params x
    = (Raise e, mkExec w2 (invoked x ++ [run_call act params])).
Proof.
  intros Hget Hs Hact. destruct (determine_action_scope st) eqn:Hscope.
  - rewrite (execute_with_gating_autonomous handler id act params x st w1 Hget Hscope),
      Hact. reflexivity.
  - rewrite (execute_with_gating_notify handler id act params x st w1 Hget Hscope),
      Hact. reflexivity.
  - congruence.
Qed.

Lemma action_exception_propagates_witness :
  get_calibration_state "slurm-hpc" sample_world
    = (Ok (mkCalibrationState "slurm-hpc" 0.72 500 0 false false), sample_world) /\
  determine_action_scope (mkCalibrationState "slurm-hpc" 0.72 500 0 false false)
    <> ESCALATE /\
  raising_tools [] "tool_requeue_job" requeue_parameters sample_world
    = (Raise (ToolError "connection reset"), sample_world) /\
  execute_with_gating raising_tools "slurm-hpc" "tool_requeue_job" requeue_parameters
      (mkExec sample_world [])
    = (Raise (ToolError "connection reset"),
       mkExec sample_world [run_call "tool_requeue_job" requeue_parameters]).
Proof.
  assert (Hget : get_calibration_state "slurm-hpc" (world (mkExec sample_world []))
                 = (Ok (mkCalibrationState "slurm-hpc" 0.72 500 0 false false),
                    sample_world)) by (vm_compute; reflexivity).
  assert (Hs : determine_action_scope
                 (mkCalibrationState "slurm-hpc" 0.72 500 0 false false) <> ESCALATE)
    by discriminate.
  assert (Hact : raising_tools (invoked (mkExec sample_world [])) "tool_requeue_job"
                   requeue_parameters sample_world
                 = (Raise (ToolError "connection reset"), sample_world))
    by reflexivity.
  split; [exact Hget|]. split; [exact Hs|]. split; [exact Hact|].
  exact (action_exception_propagates raising_tools "slurm-hpc" "tool_requeue_job"
           requeue_parameters (mkExec sample_world []) _ _ _ _ Hget Hs Hact).
Defined.

(** X20. [executed = True] says that the action call returned, not that
    it succeeded: a [ToolResult] with [success = False] is passed on in
    an outcome with [executed = True], and in the NOTIFY scope the
    notification is still sent. *)
Theorem unsuccessful_result_still_executed (handler : ToolHandler) (id act : string)
    (params : pydict) (x : Exec) (st : CalibrationState) (w1 w2 : World)
    (res : ToolResult) :
  get_calibration_state id (world x) = (Ok st, w1) ->
  handler (invoked x) act params w1 = (Ok res, w2) ->
  success res = false ->
  (determine_action_scope st = AUTONOMOUS ->
     execute_with_gating handler id act params x
       = (Ok (mkGatedOutcome true None (Some res) (Some false) "autonomous"),
          mkExec w2 (invoked x ++ [run_call act params]))) /\
  (determine_action_scope st = NOTIFY ->
     exists r w3,
       execute_with_gating handler id act params x
         = (r, mkExec w3 (invoked x ++ [run_call act params; notify_call act])) /\
       forall o, r = Ok o ->
         o = mkGatedOutcome true None (Some res) (Some true) "notify").
Proof.
  intros Hget Hact _. split; intros Hs.
  - rewrite (execute_with_gating_autonomous handler id act params x st w1 Hget Hs),
      Hact. reflexivity.
  - rewrite (execute_with_gating_notify handler id act params x st w1 Hget Hs), Hact.
    destruct (handler (invoked x ++ [run_call act params]) _ _ w2) as [[res'|e] w3];
      eexists _, _; (split; [rewrite <- app_assoc; reflexivity|]);
      intros o [= <-]; reflexivity.
Qed.

Lemma unsuccessful_result_still_executed_witness :
  get_calibration_state "eks-prod" sample_world
    = (Ok (mkCalibrationState "eks-prod" 0.92 1847 0 false false), sample_world) /\
  unsuccessful_tools [] "tool_requeue_job" requeue_parameters sample_world
    = (Ok (mkToolResult false None (Some "queue is full")), sample_world) /\
  execute_with_gating unsuccessful_tools "eks-prod" "tool_requeue_job"
      requeue_parameters (mkExec sample_world [])
    = (Ok (mkGatedOutcome true None
             (Some (mkToolResult false None (Some "queue is full")))
             (Some false) "autonomous"),
       mkExec sample_world [run_call "tool_requeue_job" requeue_parameters]).
Proof.
  assert (Hget : get_calibration_state "eks-prod" (world (mkExec sample_world []))
                 = (Ok (mkCalibrationState "eks-prod" 0.92 1847 0 false false),
                    sample_world)) by (vm_compute; reflexivity).
  assert (Hact : unsuccessful_tools (invoked (mkExec sample_world []))
                   "tool_requeue_job" requeue_parameters sample_world
                 = (Ok (mkToolResult false None (Some "queue is full")), sample_world))
    by reflexivity.
  split; [exact Hget|]. split; [exact Hact|].
  exact (proj1 (unsuccessful_result_still_executed unsuccessful_tools "eks-prod"
                  "tool_requeue_job" requeue_parameters (mkExec sample_world [])
                  _ _ _ _ Hget Hact eq_refl) eq_refl).
Defined.

(** X21. With the [invoke_tool] that [ActorAgent] itself defines,
    [execute_with_gating] never returns an outcome: its first call, the
    escalation in the ESCALATE scope and the action otherwise, raises
    [NotImplementedError] naming that tool, and no other call is made. *)
Theorem actor_agent_never_returns_outcome (id act : string) (params : pydict)
    (x : Exec) :
  exists st w1,
    get_calibration_state id (world x) = (Ok st, w1) /\
    execute_with_gating ActorAgent_invoke_tool id act params x =
      if decide (determine_action_scope st = ESCALATE) then
        (Raise (NotImplementedError
                  "Tool tool_escalate_to_human not yet implemented"),
         mkExec w1 (invoked x ++ [escalate_call st id act params]))
      else
        (Raise (NotImplementedError ("Tool " +:+ act +:+ " not yet implemented")),
         mkExec w1 (invoked x ++ [run_call act params])).
Proof.
  destruct (get_calibration_state_total (world x) id) as (st & w1 & Hget & _).
  exists st, w1. split; [exact Hget|].
  destruct (determine_action_scope st) eqn:Hs; case_decide; try congruence.
  - rewrite (execute_with_gating_autonomous _ id act params x st w1 Hget Hs).
    reflexivity.
  - rewrite (execute_with_gating_notify _ id act params x st w1 Hget Hs).
    reflexivity.
  - rewrite (execute_with_gating_escalate _ id act params x st w1 Hget Hs).
    reflexivity.
Qed.

(** X22. The scope is decided once, from the state read before any call:
    an outcome that is returned names that scope, has [executed = True]
    exactly when it is not ESCALATE and [notified_human = True] exactly
    when it is NOTIFY, whatever the collaborator did to the cache in
    between. *)
Theorem scope_decided_before_calls (handler : ToolHandler) (id act : string)
    (params : pydict) (x x' : Exec) (st : CalibrationState) (w1 : World)
    (o : GatedOutcome) :
  get_calibration_state id (world x) = (Ok st, w1) ->
  execute_with_gating handler id act params x = (Ok o, x') ->
  action_scope o = ActionScope_value (determine_action_scope st) /\
  (executed o = true <-> determine_action_scope st <> ESCALATE) /\
  (notified_human o = Some true <-> determine_action_scope st = NOTIFY).
Proof.
  intros Hget Hrun.
  destruct (execute_with_gating_trace handler id act params x st w1 Hget)
    as (r & w' & made & Hrun' & Hshape).
  rewrite Hrun in Hrun'. injection Hrun' as <- _.
  destruct (determine_action_scope st).
  - destruct Hshape as (_ & [res|e] & _ & [=]). subst o. simpl.
    repeat split; intros; congruence.
  - destruct Hshape as [(e & _ & _ & [=]) | (res & w2 & [res'|e] & _ & _ & _ & [=])].
    subst o. simpl. repeat split; intros; congruence.
  - destruct Hshape as (_ & [res|e] & _ & [=]). subst o. simpl.
    repeat split; intros; congruence.
Qed.

Lemma scope_decided_before_calls_witness :
  exists o x',
    get_calibration_state "slurm-hpc" sample_world
      = (Ok (mkCalibrationState "slurm-hpc" 0.72 500 0 false false), sample_world) /\
    execute_with_gating recalibrating_tools "slurm-hpc" "tool_requeue_job"
        requeue_parameters (mkExec sample_world []) = (Ok o, x') /\
    check_action_scope "slurm-hpc" (world x') = (Ok ESCALATE, world x') /\
    action_scope o = "notify" /\
    (executed o = true <-> NOTIFY <> ESCALATE) /\
    (notified_human o = Some true <-> NOTIFY = NOTIFY).
Proof.
  assert (Hget : get_calibration_state "slurm-hpc" (world (mkExec sample_world []))
                 = (Ok (mkCalibrationState "slurm-hpc" 0.72 500 0 false false),
                    sample_world)) by (vm_compute; reflexivity).
  eexists _, _. split; [exact Hget|].
  assert (Hrun : execute_with_gating recalibrating_tools "slurm-hpc" "tool_requeue_job"
                   requeue_parameters (mkExec sample_world [])
                 = (Ok (mkGatedOutcome true None (Some (mkToolResult true None None))
                          (Some true) "notify"),
                    mkExec
                      (mkWorld
                         (<["slurm-hpc" :=
                              mkCalibrationState "slurm-hpc" 0.1 500 1 false false]>
                            (_calibration_cache sample_world))
                         Z.of_nat 2)
                      [run_call "tool_requeue_job" requeue_parameters;
                       notify_call "tool_requeue_job"]))
    by (vm_compute; reflexivity).
  split; [exact Hrun|].
  split; [vm_compute; reflexivity|].
  exact (scope_decided_before_calls recalibrating_tools "slurm-hpc" "tool_requeue_job"
           requeue_parameters (mkExec sample_world []) _ _ _ _ Hget Hrun).
Defined.

(** X23. The executor itself never writes calibration state: with a
    collaborator that leaves the cache alone, the cache after a gated
    execution is the cache before it, whether an outcome is returned or an
    exception raised. *)
Theorem executor_never_writes_cache (handler : ToolHandler) (id act : string)
    (params : pydict) (x x' : Exec) (r : Result GatedOutcome) :
  (forall calls name p w0,
     _calibration_cache (snd (handler calls name p w0)) = _calibration_cache w0) ->
  execute_with_gating handler id act params x = (r, x') ->
  _calibration_cache (world x') = _calibration_cache (world x).
Proof.
  intros Hquiet Hrun.
  destruct (get_calibration_state_total (world x) id) as (st & w1 & Hget & Hsame).
  destruct (execute_with_gating_trace handler id act params x st w1 Hget)
    as (r' & w' & made & Hrun' & Hshape).
  rewrite Hrun in Hrun'. injection Hrun' as -> ->. simpl.
  rewrite <- Hsame.
  assert (Hstep : forall calls name p w0 ans w3,
            handler calls name p w0 = (ans, w3) ->
            _calibration_cache w3 = _calibration_cache w0).
  { intros calls name p w0 ans w3 H. rewrite <- (Hquiet calls name p w0), H.
    reflexivity. }
  destruct (determine_action_scope st).
  - destruct Hshape as (_ & ran & Hact & _). exact (Hstep _ _ _ _ _ _ Hact).
  - destruct Hshape as [(e & Hact & _) | (res & w2 & sent & Hact & Hsent & _)].
    + exact (Hstep _ _ _ _ _ _ Hact).
    + rewrite (Hstep _ _ _ _ _ _ Hsent). exact (Hstep _ _ _ _ _ _ Hact).
  - destruct Hshape as (_ & sent & Hsent & _). exact (Hstep _ _ _ _ _ _ Hsent).
Qed.

Lemma executor_never_writes_cache_witness :
  (forall calls name p w0,
     _calibration_cache (snd (obliging_tools calls name p w0)) = _calibration_cache w0) /\
  exists r x',
    execute_with_gating obliging_tools "eks-prod" "tool_requeue_job"
        requeue_parameters (mkExec sample_world []) = (r, x') /\
    _calibration_cache (world x') = _calibration_cache sample_world.
Proof.
  assert (Hquiet : forall calls name p w0,
             _calibration_cache (snd (obliging_tools calls name p w0))
             = _calibration_cache w0) by reflexivity.
  split; [exact Hquiet|].
  eexists _, _. split; [apply surjective_pairing|].
  exact (executor_never_writes_cache obliging_tools "eks-prod" "tool_requeue_job"
           requeue_parameters (mkExec sample_world []) _ _ Hquiet
           (surjective_pairing _)).
Defined.

Lemma low_score_escalates (st : CalibrationState) :
  (score st <= 0.60)%Q -> determine_action_scope st = ESCALATE.
Proof.
  intros Hs. unfold determine_action_scope.
  destruct ((sample_count st <? 50)%Z || is_learning_mode st); [reflexivity|].
  float_cases; try reflexivity; lra.
Qed.

(** The calls of a gated execution whose scope is ESCALATE. *)
Lemma execute_with_gating_escalates (handler : ToolHandler) (id act : string)
    (params : pydict) (x : Exec) (st : CalibrationState) (w1 : World) :
  get_calibration_state id (world x) = (Ok st, w1) ->
  determine_action_scope st = ESCALATE ->
  exists r w',
    execute_with_gating handler id act params x
      = (r, mkExec w' (invoked x ++ [escalate_call st id act params])) /\
    forall o, r = Ok o -> executed o = false.
Proof.
  intros Hget Hs.
  rewrite (execute_with_gating_escalate handler id act params x st w1 Hget Hs).
  destruct (handler _ _ _ _) as [[res|e] w2]; eexists _, _;
    (split; [reflexivity|]); intros o [= <-]; reflexivity.
Qed.

(** X24. For a cluster the cache does not hold, a gated execution never
    calls the action: its only call is the escalation, with the reason
    "Low calibration (0.50) for cluster <id>" and the requested action
    and parameters as context. *)
Theorem unseen_cluster_is_escalated (handler : ToolHandler) (id act : string)
    (params : pydict) (x : Exec) :
  _calibration_cache (world x) !! id = None ->
  exists r w',
    execute_with_gating handler id act params x
      = (r, mkExec w'
              (invoked x ++
               [mkCall EscalateToHuman "tool_escalate_to_human"
                  [ ("reason",
                     PyStr ("Low calibration (0.50) for cluster " +:+ id));
                    ("context", PyDict [ ("action", PyStr act);
                                         ("parameters", PyDict params) ]) ]])) /\
    forall o, r = Ok o -> executed o = false.
Proof.
  intros Hmiss.
  exact (execute_with_gating_escalates handler id act params x _ _
           (get_calibration_state_miss _ _ Hmiss) eq_refl).
Qed.

Lemma unseen_cluster_is_escalated_witness :
  _calibration_cache (world (mkExec ticking_world [])) !! "never-seen-before" = None /\
  exists r w',
    execute_with_gating obliging_tools "never-seen-before" "tool_requeue_job"
        requeue_parameters (mkExec ticking_world [])
      = (r, mkExec w'
              ([] ++
               [mkCall EscalateToHuman "tool_escalate_to_human"
                  [ ("reason",
                     PyStr ("Low calibration (0.50) for cluster "
                              +:+ "never-seen-before"));
                    ("context", PyDict [ ("action", PyStr "tool_requeue_job");
                                         ("parameters", PyDict requeue_parameters) ]) ]])) /\
    forall o, r = Ok o -> executed o = false.
Proof.
  assert (H : _calibration_cache (world (mkExec ticking_world []))
                !! "never-seen-before" = None) by reflexivity.
  split; [exact H|].
  exact (unseen_cluster_is_escalated obliging_tools "never-seen-before"
           "tool_requeue_job" requeue_parameters (mkExec ticking_world []) H).
Defined.

(** X25. A stored score of 0.60 or less is never acted on, however many
    samples stand behind it: the only call of the gated execution is the
    escalation. *)
Theorem low_calibration_never_acts (handler : ToolHandler) (id act : string)
    (params : pydict) (x : Exec) (st : CalibrationState) (w1 : World) :
  get_calibration_state id (world x) = (Ok st, w1) ->
  (score st <= 0.60)%Q ->
  exists r w',
    execute_with_gating handler id act params x
      = (r, mkExec w' (invoked x ++ [escalate_call st id act params])) /\
    forall o, r = Ok o -> executed o = false.
Proof.
  intros Hget Hs.
  exact (execute_with_gating_escalates handler id act params x st w1 Hget
           (low_score_escalates st Hs)).
Qed.

Lemma low_calibration_never_acts_witness :
  get_calibration_state "unknown-batch" sample_world
    = (Ok (mkCalibrationState "unknown-batch" 0.45 200 0 false false), sample_world) /\
  (0.45 <= 0.60)%Q /\
  exists r w',
    execute_with_gating obliging_tools "unknown-batch" "tool_requeue_job"
        requeue_parameters (mkExec sample_world [])
      = (r, mkExec w'
              ([] ++ [escalate_call
                        (mkCalibrationState "unknown-batch" 0.45 200 0 false false)
                        "unknown-batch" "tool_requeue_job" requeue_parameters])) /\
    forall o, r = Ok o -> executed o = false.
Proof.
  assert (Hget : get_calibration_state "unknown-batch" (world (mkExec sample_world []))
                 = (Ok (mkCalibrationState "unknown-batch" 0.45 200 0 false false),
                    sample_world)) by (vm_compute; reflexivity).
  assert (Hs : (score (mkCalibrationState "unknown-batch" 0.45 200 0 false false)
                <= 0.60)%Q) by (vm_compute; discriminate).
  split; [exact Hget|]. split; [exact Hs|].
  exact (low_calibration_never_acts obliging_tools "unknown-batch" "tool_requeue_job"
           requeue_parameters (mkExec sample_world []) _ _ Hget Hs).
Defined.

(** X26. After an update with fewer than 50 samples the cluster is not
    acted on, however high the score stored: the only call of a gated
    execution is the escalation. *)
Theorem update_below_50_samples_blocks_action (handler : ToolHandler) (w : World)
    (id act : string) (s : float) (n : Z) (flag : option bool) (params : pydict)
    (calls : list Call) :
  (0 <= s <= 1)%Q -> (0 <= n < 50)%Z ->
  exists st w1 r w',
    update_calibration_state id s n flag w = (Ok st, w1) /\
    score st = s /\
    execute_with_gating handler id act params (mkExec w1 calls)
      = (r, mkExec w' (calls ++ [escalate_call st id act params])) /\
    forall o, r = Ok o -> executed o = false.
Proof.
  intros Hs [Hn0 Hn].
  eexists _, _. 
  rewrite (update_calibration_state_ok w id s n flag Hs Hn0).
  assert (Hget : get_calibration_state id
                   (world (mkExec
                             (mkWorld
                                (<[id := mkCalibrationState id s n
                                           (wall_clock w (clock_reads w))
                                           (n <? 50)%Z (default false flag)]>
                                   (_calibration_cache w))
                                (wall_clock w) (S (clock_reads w))) calls))
                 = (Ok (mkCalibrationState id s n (wall_clock w (clock_reads w))
                          (n <? 50)%Z (default false flag)),
                    mkWorld
                      (<[id := mkCalibrationState id s n
                                 (wall_clock w (clock_reads w))
                                 (n <? 50)%Z (default false flag)]>
                         (_calibration_cache w))
                      (wall_clock w) (S (clock_reads w)))).
  { apply get_calibration_state_hit. simpl. apply lookup_insert_eq. }
  assert (Hscope : determine_action_scope
                     (mkCalibrationState id s n (wall_clock w (clock_reads w))
                        (n <? 50)%Z (default false flag)) = ESCALATE).
  { unfold determine_action_scope. simpl.
    apply Z.ltb_lt in Hn. rewrite Hn. reflexivity. }
  destruct (execute_with_gating_escalates handler id act params _ _ _ Hget Hscope)
    as (r & w' & Hrun & Hout).
  exists r, w'. split; [reflexivity|]. split; [reflexivity|].
  split; [exact Hrun | exact Hout].
Qed.

Lemma update_below_50_samples_blocks_action_witness :
  (0 <= 0.95 <= 1)%Q /\ (0 <= 49 < 50)%Z /\
  exists st w1 r w',
    update_calibration_state "small-sample" 0.95 49 None ticking_world = (Ok st, w1) /\
    score st = 0.95%Q /\
    execute_with_gating obliging_tools "small-sample" "tool_requeue_job"
        requeue_parameters (mkExec w1 [])
      = (r, mkExec w' ([] ++ [escalate_call st "small-sample" "tool_requeue_job"
                                requeue_parameters])) /\
    forall o, r = Ok o -> executed o = false.
Proof.
  assert (Hs : (0 <= 0.95 <= 1)%Q) by (split; vm_compute; discriminate).
  assert (Hn : (0 <= 49 < 50)%Z) by lia.
  split; [exact Hs|]. split; [exact Hn|].
  exact (update_below_50_samples_blocks_action obliging_tools ticking_world
           "small-sample" "tool_requeue_job" 0.95 49 None requeue_parameters []
           Hs Hn).
Defined.

(** ** The scope resolver *)

(** X27. More evidence and a better score never make the scope more
    cautious: between two states whose learning flag is the one their
    sample count gives, the one with at least the score and at least the
    sample count of the other has a scope that is at most as cautious
    (AUTONOMOUS before NOTIFY before ESCALATE). *)
Theorem scope_monotone_in_score_and_samples (st1 st2 : CalibrationState) :
  is_learning_mode st1 = (sample_count st1 <? 50)%Z ->
  is_learning_mode st2 = (sample_count st2 <? 50)%Z ->
  (score st1 <= score st2)%Q ->
  (sample_count st1 <= sample_count st2)%Z ->
  (caution (determine_action_scope st2) <= caution (determine_action_scope st1))%nat.
Proof.
  intros Hl1 Hl2 Hs Hn. unfold determine_action_scope.
  rewrite Hl1, Hl2, !orb_diag.
  assert (Hmax : forall sc, (caution sc <= 2)%nat) by (intros []; simpl; lia).
  destruct (sample_count st1 <? 50)%Z eqn:E1; [apply Hmax|].
  apply Z.ltb_ge in E1.
  assert (E2 : (sample_count st2 <? 50)%Z = false) by (apply Z.ltb_ge; lia).
  rewrite E2. float_cases; simpl; try lia; exfalso; lra.
Qed.

Lemma scope_monotone_in_score_and_samples_witness :
  (0.72 <= 0.92)%Q /\ (500 <= 1847)%Z /\
  (caution (determine_action_scope
              (mkCalibrationState "eks-prod" 0.92 1847 0 false false))
   <= caution (determine_action_scope
                 (mkCalibrationState "slurm-hpc" 0.72 500 0 false false)))%nat.
Proof.
  assert (Hs : (score (mkCalibrationState "slurm-hpc" 0.72 500 0 false false)
                <= score (mkCalibrationState "eks-prod" 0.92 1847 0 false false))%Q)
    by (vm_compute; discriminate).
  assert (Hn : (sample_count (mkCalibrationState "slurm-hpc" 0.72 500 0 false false)
                <= sample_count (mkCalibrationState "eks-prod" 0.92 1847 0 false false))%Z)
    by (simpl; lia).
  split; [exact Hs|]. split; [exact Hn|].
  exact (scope_monotone_in_score_and_samples
           (mkCalibrationState "slurm-hpc" 0.72 500 0 false false)
           (mkCalibrationState "eks-prod" 0.92 1847 0 false false)
           eq_refl eq_refl Hs Hn).
Defined.

(** X28. After an update with at least 50 samples and a score above 0.85,
    a gated execution calls the action and nothing else; when the action
    call returns, the outcome has [executed = True] and
    [notified_human = False] and carries the result. *)
Theorem update_well_calibrated_runs_action (handler : ToolHandler) (w : World)
    (id act : string) (s : float) (n : Z) (flag : option bool) (params : pydict)
    (calls : list Call) :
  (0.85 < s /\ s <= 1)%Q -> (50 <= n)%Z ->
  exists st w1 ran w',
    update_calibration_state id s n flag w = (Ok st, w1) /\
    handler calls act params w1 = (ran, w') /\
    execute_with_gating handler id act params (mkExec w1 calls)
      = (match ran with
         | Ok res => Ok (mkGatedOutcome true None (Some res) (Some false) "autonomous")
         | Raise e => Raise e
         end,
         mkExec w' (calls ++ [run_call act params])).
Proof.
  intros [Hs0 Hs1] Hn.
  assert (Hs : (0 <= s <= 1)%Q) by lra.
  assert (Hn0 : (0 <= n)%Z) by lia.
  pose (st := mkCalibrationState id s n (wall_clock w (clock_reads w))
                (n <? 50)%Z (default false flag)).
  pose (w1 := mkWorld (<[id := st]> (_calibration_cache w)) (wall_clock w)
                (S (clock_reads w))).
  assert (Hget : get_calibration_state id (world (mkExec w1 calls)) = (Ok st, w1)).
  { apply get_calibration_state_hit. simpl. apply lookup_insert_eq. }
  assert (Hscope : determine_action_scope st = AUTONOMOUS).
  { rewrite determine_action_scope_established; simpl;
      [| exact Hn | apply Z.ltb_ge; exact Hn].
    assert (float_gt s 0.85 = true) as -> by (apply float_gt_iff; exact Hs0).
    reflexivity. }
  exists st, w1.
  destruct (handler calls act params w1) as [ran w'] eqn:Hact.
  exists ran, w'.
  split; [exact (update_calibration_state_ok w id s n flag Hs Hn0)|].
  split; [reflexivity|].
  rewrite (execute_with_gating_autonomous handler id act params _ _ _ Hget Hscope).
  simpl. rewrite Hact. destruct ran; reflexivity.
Qed.

Lemma update_well_calibrated_runs_action_witness :
  (0.85 < 0.88 /\ 0.88 <= 1)%Q /\ (50 <= 500)%Z /\
  exists st w1 ran w',
    update_calibration_state "test-cluster" 0.88 500 None ticking_world = (Ok st, w1) /\
    obliging_tools [] "tool_requeue_job" requeue_parameters w1 = (ran, w') /\
    execute_with_gating obliging_tools "test-cluster" "tool_requeue_job"
        requeue_parameters (mkExec w1 [])
      = (match ran with
         | Ok res => Ok (mkGatedOutcome true None (Some res) (Some false) "autonomous")
         | Raise e => Raise e
         end,
         mkExec w' ([] ++ [run_call "tool_requeue_job" requeue_parameters])).
Proof.
  assert (Hs : (0.85 < 0.88 /\ 0.88 <= 1)%Q) by (split; vm_compute; congruence).
  assert (Hn : (50 <= 500)%Z) by lia.
  split; [exact Hs|]. split; [exact Hn|].
  exact (update_well_calibrated_runs_action obliging_tools ticking_world
           "test-cluster" "tool_requeue_job" 0.88 500 None requeue_parameters []
           Hs Hn).
Defined.

(** ** The scorer on binary64 numbers *)

Lemma SFltb_SFleb (x y : spec_float) : SFltb x y = true -> SFleb x y = true.
Proof. unfold SFltb, SFleb. destruct (SFcompare x y) as [[]|]; congruence. Qed.

(** X29. On binary64 numbers the score is in [0, 1] for every input, the
    infinities and NaN included, so the record constructor accepts it; a
    NaN error is scored 1.0. *)
Theorem binary64_score_always_in_range (ece : PrimFloat.float) :
  (0 <=? Binary64.ece_to_calibration_score ece)%float = true /\
  (Binary64.ece_to_calibration_score ece <=? 1)%float = true /\
  (Binary64.ece_to_calibration_score nan =? 1)%float = true /\
  (Binary64.ece_to_calibration_score infinity =? 0)%float = true /\
  (Binary64.ece_to_calibration_score neg_infinity =? 1)%float = true.
Proof.
  split; [|split; [|repeat split; vm_compute; reflexivity]].
  - unfold Binary64.ece_to_calibration_score, Binary64.py_max, Binary64.py_min.
    generalize (1.0 - ece * 5)%float as x. intros x.
    destruct (x <? 1.0)%float eqn:E1.
    + destruct (0.0 <? x)%float eqn:E0; [|reflexivity].
      rewrite ltb_spec in E0. rewrite leb_spec. apply SFltb_SFleb. exact E0.
    + reflexivity.
  - unfold Binary64.ece_to_calibration_score, Binary64.py_max, Binary64.py_min.
    generalize (1.0 - ece * 5)%float as x. intros x.
    destruct (x <? 1.0)%float eqn:E1.
    + destruct (0.0 <? x)%float eqn:E0; [|reflexivity].
      rewrite ltb_spec in E1. rewrite leb_spec. apply SFltb_SFleb. exact E1.
    + reflexivity.
Qed.

(** * The drift detector on binary64 numbers

    [Double.check_calibration_drift] divides and compares as the
    interpreter does: the quotient is rounded to nearest, and every
    comparison with a NaN is false. *)

Lemma SFcompare_refl (x : spec_float) :
  x <> S754_nan -> SFcompare x x = Some Eq.
Proof.
  destruct x as [s|s| |s m e]; try congruence; intros _; simpl.
  - reflexivity.
  - destruct s; reflexivity.
  - destruct s; rewrite Z.compare_refl, Pos.compare_cont_refl; reflexivity.
Qed.

Lemma binary64_nan (x : PrimFloat.float) :
  (x =? x)%float = false -> Prim2SF x = S754_nan.
Proof.
  rewrite FloatAxioms.eqb_spec. intros H.
  destruct (Prim2SF x) as [s|s| |s m e] eqn:E; try reflexivity;
    unfold SFeqb in H; rewrite SFcompare_refl in H; congruence.
Qed.

(** No number is at most a NaN. *)
Lemma binary64_nan_leb (x c : PrimFloat.float) :
  (x =? x)%float = false -> (x <=? c)%float = false.
Proof. intros H. rewrite leb_spec, (binary64_nan x H). reflexivity. Qed.

(** The divisor is never zero: a zero baseline is replaced. *)
Lemma double_baseline_nonzero (baseline_ece : PrimFloat.float) :
  ((if baseline_ece <=? 0 then 0.018 else baseline_ece) =? 0)%float = false.
Proof.
  destruct (baseline_ece <=? 0)%float eqn:E; [vm_compute; reflexivity|].
  destruct (baseline_ece =? 0)%float eqn:E0; [|reflexivity].
  rewrite FloatAxioms.eqb_spec in E0. rewrite leb_spec in E.
  unfold SFeqb in E0. unfold SFleb in E.
  destruct (SFcompare (Prim2SF baseline_ece) (Prim2SF 0)) as [[]|]; congruence.
Qed.

(** The detector returns, with the verdict of the three comparisons. *)
Lemma double_check_calibration_drift_run (current_ece baseline_ece : PrimFloat.float) :
  exists d,
    Double.check_calibration_drift current_ece baseline_ece = Ok d /\
    Double.drift_ratio d
      = (current_ece / (if baseline_ece <=? 0 then 0.018 else baseline_ece))%float /\
    (Double.severity d, Double.action d, Double.drift_ratio d)
      = Binary64.check_calibration_drift current_ece baseline_ece.
Proof.
  unfold Double.check_calibration_drift, Double.py_truediv,
         Binary64.check_calibration_drift.
  rewrite double_baseline_nonzero.
  generalize (current_ece
              / (if baseline_ece <=? 0 then 0.018 else baseline_ece))%float as r.
  intros r.
  destruct (r <=? 1.5)%float; [|destruct (r <=? 2.0)%float;
    [|destruct (r <=? 5.0)%float]];
    eexists; (split; [reflexivity|]); split; reflexivity.
Qed.

(** C4, as amended.  The detector never fails; the ratio is the binary64
    quotient of the current error by the baseline, 0.018 standing for a
    baseline that is at most 0.  A ratio that is a number is classified
    by the inclusive bounds 1.5, 2.0 and 5.0; a ratio that is a NaN is
    reported critical. *)
Theorem drift_classified_unless_nan (current_ece baseline_ece : PrimFloat.float) :
  exists d,
    Double.check_calibration_drift current_ece baseline_ece = Ok d /\
    Double.drift_ratio d
      = (current_ece / (if baseline_ece <=? 0 then 0.018 else baseline_ece))%float /\
    ((Double.drift_ratio d =? Double.drift_ratio d)%float = true ->
       (Double.severity d = "none" /\ Double.action d = "continue"
          <-> (Double.drift_ratio d <=? 1.5)%float = true) /\
       (Double.severity d = "moderate" /\ Double.action d = "monitor"
          <-> (1.5 <? Double.drift_ratio d)%float = true
              /\ (Double.drift_ratio d <=? 2.0)%float = true) /\
       (Double.severity d = "significant" /\ Double.action d = "reduce_autonomy"
          <-> (2.0 <? Double.drift_ratio d)%float = true
              /\ (Double.drift_ratio d <=? 5.0)%float = true) /\
       (Double.severity d = "critical" /\ Double.action d = "trigger_recalibration"
          <-> (5.0 <? Double.drift_ratio d)%float = true)) /\
    ((Double.drift_ratio d =? Double.drift_ratio d)%float = false ->
       Double.severity d = "critical" /\ Double.action d = "trigger_recalibration" /\
       (5.0 <? Double.drift_ratio d)%float = false).
Proof.
  destruct (double_check_calibration_drift_run current_ece baseline_ece)
    as (d & Hd & Hr & Hv).
  exists d. split; [exact Hd|]. split; [exact Hr|]. split.
  - intros Hnum.
    pose proof (binary64_drift_classified current_ece baseline_ece) as H.
    cbv zeta in H. rewrite <- Hv in H. cbn [fst snd] in H.
    destruct (H Hnum) as (H1 & H2 & H3 & H4).
    split; [rewrite <- H1|split; [rewrite <- H2|split; [rewrite <- H3|rewrite <- H4]]];
      (split; [intros [-> ->]; reflexivity | intros [= -> ->]; split; reflexivity]).
  - intros Hnan.
    assert (Hs : (Double.severity d, Double.action d)
                 = ("critical", "trigger_recalibration")).
    { change (Double.severity d, Double.action d)
        with (fst (Double.severity d, Double.action d, Double.drift_ratio d)).
      rewrite Hv. unfold Binary64.check_calibration_drift. rewrite <- Hr.
      rewrite !(binary64_nan_leb _ _ Hnan). reflexivity. }
    injection Hs as -> ->. split; [reflexivity|]. split; [reflexivity|].
    rewrite ltb_spec, (binary64_nan _ Hnan). reflexivity.
Qed.

(** C4, as stated, fails where the ratio is a NaN: the result is critical
    although the ratio is not above 5.0.  A NaN current error, a NaN
    baseline, and two infinite errors each give such a ratio. *)
Lemma drift_nan_ratio_is_critical_counterexample :
  Double.check_calibration_drift nan 0.018
    = Ok (Double.mkDriftStatus "critical" "trigger_recalibration"
            "ECE increased nan× — recalibration required" nan) /\
  (5.0 <? nan)%float = false /\
  Double.check_calibration_drift 0.018 nan
    = Ok (Double.mkDriftStatus "critical" "trigger_recalibration"
            "ECE increased nan× — recalibration required" nan) /\
  Double.check_calibration_drift infinity infinity
    = Ok (Double.mkDriftStatus "critical" "trigger_recalibration"
            "ECE increased nan× — recalibration required" nan).
Proof. repeat split; vm_compute; reflexivity. Qed.

(** The quotient is rounded before it is compared: the errors
    [6755399441055742 * 2^-58] and [9007199254740989 * 2^-59], whose
    exact quotient is above 1.5, have the binary64 quotient 1.5 and are
    reported stable. *)
Example drift_rounded_quotient :
  let a := SF2Prim (S754_finite false 6755399441055742 (-58)) in
  let b := SF2Prim (S754_finite false 9007199254740989 (-59)) in
  Double.check_calibration_drift a b
    = Ok (Double.mkDriftStatus "none" "continue" "Calibration stable" 1.5) /\
  (1.5 < Double.exact_value (Prim2SF a) / Double.exact_value (Prim2SF b))%Q /\
  exists d, check_calibration_drift (Double.exact_value (Prim2SF a))
                                    (Double.exact_value (Prim2SF b)) = Ok d /\
            severity d = "moderate".
Proof.
  cbv zeta. split; [vm_compute; reflexivity|]. split; [vm_compute; reflexivity|].
  eexists. split; [vm_compute; reflexivity|]. reflexivity.
Qed.

(** The detector at the points of the test-suite, with its messages. *)
Example double_drift_test_points :
  Double.check_calibration_drift 0.018 0.018
    = Ok (Double.mkDriftStatus "none" "continue" "Calibration stable" 1) /\
  Double.check_calibration_drift 0.030 0.018
    = Ok (Double.mkDriftStatus "moderate" "monitor"
            "ECE increased 1.7× from baseline" 1.6666666666666667) /\
  Double.check_calibration_drift 0.050 0.018
    = Ok (Double.mkDriftStatus "significant" "reduce_autonomy"
            "ECE increased 2.8× — reducing autonomous actions" 2.7777777777777781) /\
  Double.check_calibration_drift 0.396 0.018
    = Ok (Double.mkDriftStatus "critical" "trigger_recalibration"
            "ECE increased 22.0× — recalibration required" 22.000000000000004) /\
  Double.check_calibration_drift 0.018 0
    = Ok (Double.mkDriftStatus "none" "continue" "Calibration stable" 1) /\
  Double.check_calibration_drift 0.018 (-0.0)
    = Ok (Double.mkDriftStatus "none" "continue" "Calibration stable" 1).
Proof. repeat split; vm_compute; reflexivity. Qed.

(** ** The sign of a binary64 quotient *)

Lemma shr_1_nonneg (mrs : shr_record) :
  (0 <= shr_m mrs)%Z -> (0 <= shr_m (shr_1 mrs))%Z.
Proof. destruct mrs as [[|[p|p|]|p] r s]; simpl; lia. Qed.

Lemma iter_pos_nonneg (n : positive) (mrs : shr_record) :
  (0 <= shr_m mrs)%Z -> (0 <= shr_m (SpecFloat.iter_pos shr_1 n mrs))%Z.
Proof.
  revert mrs. induction n as [n IH|n IH|]; intros mrs H; simpl.
  - apply IH, IH, shr_1_nonneg, H.
  - apply IH, IH, H.
  - apply shr_1_nonneg, H.
Qed.

Lemma shr_fexp_nonneg (m e : Z) (l : location) :
  (0 <= m)%Z -> (0 <= shr_m (fst (shr_fexp prec emax m e l)))%Z.
Proof.
  intros H. unfold shr_fexp, shr.
  assert (Hrec : (0 <= shr_m (shr_record_of_loc m l))%Z)
    by (destruct l as [|[]]; exact H).
  destruct (fexp prec emax (Zdigits2 m + e) - e)%Z; simpl;
    [exact Hrec | apply iter_pos_nonneg, Hrec | exact Hrec].
Qed.

Lemma round_nearest_even_nonneg (m : Z) (l : location) :
  (0 <= m)%Z -> (0 <= round_nearest_even m l)%Z.
Proof.
  intros H. destruct l as [|[]]; simpl; try lia. destruct (Z.even m); lia.
Qed.

(** Rounding keeps the sign. *)
Lemma binary_round_aux_sign (sx : bool) (mx ex : Z) (lx : location) :
  (0 <= mx)%Z ->
  binary_round_aux prec emax sx mx ex lx = S754_zero sx \/
  binary_round_aux prec emax sx mx ex lx = S754_infinity sx \/
  exists m e, binary_round_aux prec emax sx mx ex lx = S754_finite sx m e.
Proof.
  intros H. unfold binary_round_aux.
  pose proof (shr_fexp_nonneg mx ex lx H) as H1.
  destruct (shr_fexp prec emax mx ex lx) as [mrs' e']. simpl in H1.
  pose proof (shr_fexp_nonneg _ e' loc_Exact
                (round_nearest_even_nonneg _ (loc_of_shr_record mrs') H1)) as H2.
  destruct (shr_fexp prec emax _ e' loc_Exact) as [mrs'' e'']. simpl in H2.
  destruct (shr_m mrs'') as [|m|m]; [left; reflexivity| |lia].
  destruct (e'' <=? emax - prec)%Z; [right; right; eexists _, _; reflexivity|].
  right; left; reflexivity.
Qed.

Lemma SFdiv_core_binary_nonneg (m1 m2 : positive) (e1 e2 : Z) :
  (0 <= fst (fst (SFdiv_core_binary prec emax (Z.pos m1) e1 (Z.pos m2) e2)))%Z.
Proof.
  unfold SFdiv_core_binary.
  set (s := (_ - _ - _)%Z).
  set (m' := match s with
             | Z.pos _ => Z.shiftl (Z.pos m1) s
             | Z0 => Z.pos m1
             | Z.neg _ => 0%Z
             end).
  assert (Hm : (0 <= m')%Z).
  { subst m'. destruct s; try lia. apply Z.shiftl_nonneg. lia. }
  pose proof (Z.div_pos m' (Z.pos m2) Hm ltac:(lia)) as Hq.
  unfold Z.div in Hq. destruct (Z.div_eucl m' (Z.pos m2)) as [q r]. exact Hq.
Qed.

(** A number that is not negative, divided by a positive one, is not
    negative, unless both are infinite. *)
Lemma SFdiv_nonneg (x y : spec_float) :
  SFleb (S754_zero false) x = true ->
  SFltb (S754_zero false) y = true ->
  (x = S754_infinity false -> y = S754_infinity false -> False) ->
  SFleb (S754_zero false) (SF64div x y) = true.
Proof.
  intros Hx Hy Hinf. unfold SF64div, SFdiv.
  destruct x as [sx|[]| |[] mx ex]; try discriminate;
    destruct y as [sy|[]| |[] my ey]; try discriminate;
    try reflexivity; try (exfalso; apply Hinf; reflexivity).
  pose proof (SFdiv_core_binary_nonneg mx my ex ey) as Hq.
  destruct (SFdiv_core_binary prec emax (Z.pos mx) ex (Z.pos my) ey) as [[mz ez] lz].
  simpl in Hq.
  destruct (binary_round_aux_sign (xorb false false) mz ez lz Hq)
    as [-> | [-> | (m & e & ->)]]; reflexivity.
Qed.

(** A number that is not at most zero is above it. *)
Lemma SFleb_false_SFltb (y : spec_float) :
  y <> S754_nan ->
  SFleb y (S754_zero false) = false -> SFltb (S754_zero false) y = true.
Proof.
  destruct y as [s|[]| |[] m e]; try congruence; intros _; cbn; congruence.
Qed.

(** The divisor is positive when the baseline is a number. *)
Lemma double_baseline_positive (baseline_ece : PrimFloat.float) :
  (baseline_ece =? baseline_ece)%float = true ->
  SFltb (S754_zero false)
        (Prim2SF (if baseline_ece <=? 0 then 0.018 else baseline_ece)%float) = true.
Proof.
  intros Hb. apply binary64_not_nan in Hb.
  destruct (baseline_ece <=? 0)%float eqn:E; [vm_compute; reflexivity|].
  rewrite leb_spec in E. apply SFleb_false_SFltb; assumption.
Qed.

(** C9, as amended.  When the current error is at least 0, the baseline
    is not a NaN, and the two are not both infinite, the detector returns
    a ratio that is at least 0. *)
Theorem drift_ratio_nonnegative_on_numbers (current_ece baseline_ece : PrimFloat.float) :
  (0 <=? current_ece)%float = true ->
  (baseline_ece =? baseline_ece)%float = true ->
  (current_ece =? infinity)%float && (baseline_ece =? infinity)%float = false ->
  exists d,
    Double.check_calibration_drift current_ece baseline_ece = Ok d /\
    (0 <=? Double.drift_ratio d)%float = true.
Proof.
  intros Hc Hb Hinf.
  destruct (double_check_calibration_drift_run current_ece baseline_ece)
    as (d & Hd & Hr & _).
  exists d. split; [exact Hd|]. rewrite Hr.
  rewrite leb_spec, div_spec. rewrite leb_spec in Hc.
  apply SFdiv_nonneg.
  - exact Hc.
  - apply double_baseline_positive, Hb.
  - intros Hx Hy.
    assert (Hci : (current_ece =? infinity)%float = true).
    { rewrite FloatAxioms.eqb_spec, Hx. reflexivity. }
    assert (Hbi : (baseline_ece =? infinity)%float = true).
    { destruct (baseline_ece <=? 0)%float; [vm_compute in Hy; discriminate|].
      rewrite FloatAxioms.eqb_spec, Hy. reflexivity. }
    rewrite Hci, Hbi in Hinf. discriminate.
Qed.

Lemma drift_ratio_nonnegative_on_numbers_witness :
  (0 <=? 0.030)%float = true /\
  (0.018 =? 0.018)%float = true /\
  (0.030 =? infinity)%float && (0.018 =? infinity)%float = false /\
  exists d,
    Double.check_calibration_drift 0.030 0.018 = Ok d /\
    (0 <=? Double.drift_ratio d)%float = true.
Proof.
  split; [reflexivity|]. split; [reflexivity|]. split; [reflexivity|].
  apply (drift_ratio_nonnegative_on_numbers 0.030 0.018); reflexivity.
Defined.

(** C9, as stated, fails: only the baseline is guarded, and a negative
    current error gives a negative ratio.  Without the conditions of the
    amended claim the ratio can also be a NaN, which is not at least 0. *)
Lemma drift_ratio_negative_binary64_counterexample :
  Double.check_calibration_drift (-0.036) 0.018
    = Ok (Double.mkDriftStatus "none" "continue" "Calibration stable" (-2)) /\
  (0 <=? -2)%float = false /\
  Double.check_calibration_drift 0.018 nan
    = Ok (Double.mkDriftStatus "critical" "trigger_recalibration"
            "ECE increased nan× — recalibration required" nan) /\
  (0 <=? nan)%float = false.
Proof. repeat split; vm_compute; reflexivity. Qed.
